(** * PAticAnimator: the configuration state machine, formalised

    A shallow embedding of [src/PAticAnimator.py].  The class keeps all of its
    configuration in attributes of one object and changes them through public
    setters; here the object is the record [animator], a method is a function
    in a small state-and-exception monad, and a raised exception keeps the
    attributes assigned before it was raised.

    Modelling conventions.
    - A Python [int] is a [Z]; a Python [float] (and a numpy [float64]) is an
      IEEE 754 binary64 value, taken from the Standard Library's executable
      specification [SpecFloat] with precision 53 and maximal exponent 1024.
    - The three dictionaries keyed by marker sub-type are finite maps.
    - Of a Matplotlib object it is tracked whether the attribute holding it
      has been assigned and whether it holds [None], because reading a missing
      attribute or calling a method on [None] raises [AttributeError] in the
      program itself.  Of an Axes it is also tracked whether it is still in the
      figure: [Axes.remove] raises [KeyError] on an Axes that has been removed,
      and [Figure.colorbar] raises [AttributeError] beside one.
    - A Matplotlib call that is given the coordinate arrays raises when they
      do not fit the field: [pcolormesh] raises [TypeError] for arrays of
      another shape and [ValueError] for a coordinate that is not finite,
      [scatter] and [quiver] raise [ValueError] for arrays of different sizes,
      and [set_xlim] raises [ValueError] for a limit that is not finite.
      Colour and colormap names are not interpreted: every string stored in
      [ax_fc], [colormap] or [marker_colors] is taken to be one Matplotlib
      knows, as the defaults are.
    - [str.lower] is modelled on ASCII letters. *)

From Stdlib Require Import ZArith String Ascii List Bool Lia.
From Stdlib Require Import Floats.PrimFloat Floats.FloatOps Floats.SpecFloat.
From stdpp Require Import gmap strings pretty.

Local Open Scope string_scope.
Local Open Scope Z_scope.
Set Warnings "-inexact-float,-register-all".

(** ** Python values *)

Inductive exn :=
| TypeError
| ValueError
| AttributeError
| ZeroDivisionError
| OverflowError
| IndexError
| KeyError
| UnboundLocalError
| Exception.

(** A number is an [int] or a [float]; the program stores both kinds in the
    same attributes (for example [marker_size = 500] and later
    [marker_size = float(size)]). *)
Inductive number :=
| Int (z : Z)
| Float (f : spec_float).

(** Element types.  [np.complex_] is the double-precision type
    [complex128]; a single-precision complex array ([complex64]) is a different
    type. *)
Inductive dtype := Dint | Dfloat | Dcomplex64 | Dcomplex128.

Definition is_complex (d : dtype) : bool :=
  match d with
  | Dcomplex64 | Dcomplex128 => true
  | _ => false
  end.

(** A numpy array: its shape, its element type and its entries in row-major
    order.  The entries of a complex array are not interpreted. *)
Record ndarray := {
  shape : list Z;
  dtype_of : dtype;
  data : list number
}.

(** Arguments are dynamically typed.  A [str] carries what the builtin
    [float] makes of it ([None] when [float] raises [ValueError]). *)
Inductive pyobj :=
| PNone
| PNum (n : number)
| PStr (s : string) (as_float : option spec_float)
| PSeq (l : list pyobj)
| PArray (a : ndarray).

(** ** binary64 arithmetic *)

Definition f64 (x : float) : spec_float := Prim2SF x.

Definition f_0_0 : spec_float := Eval vm_compute in f64 0.0.
Definition f_0_1 : spec_float := Eval vm_compute in f64 0.1.
Definition f_0_2 : spec_float := Eval vm_compute in f64 0.2.
Definition f_0_25 : spec_float := Eval vm_compute in f64 0.25.
Definition f_0_5 : spec_float := Eval vm_compute in f64 0.5.
Definition f_0_85 : spec_float := Eval vm_compute in f64 0.85.
Definition f_1_0 : spec_float := Eval vm_compute in f64 1.0.
Definition f_1_5 : spec_float := Eval vm_compute in f64 1.5.
Definition f_1_75 : spec_float := Eval vm_compute in f64 1.75.
Definition f_neg_0_1 : spec_float := Eval vm_compute in f64 (-0.1).

Definition fadd := SFadd 53 1024.
Definition fsub := SFsub 53 1024.
Definition fmul := SFmul 53 1024.
Definition fdiv := SFdiv 53 1024.

(** Conversion of an integer to the nearest binary64 value. *)
Definition float_of_Z (z : Z) : spec_float := binary_normalize 53 1024 z 0 false.

Definition is_nan (f : spec_float) : bool :=
  match f with S754_nan => true | _ => false end.

(** [int(f)]: truncation toward zero. *)
Definition float_trunc (f : spec_float) : exn + Z :=
  match f with
  | S754_zero _ => inr 0
  | S754_infinity _ => inl OverflowError
  | S754_nan => inl ValueError
  | S754_finite s m e => inr (cond_Zopp s (Z.shiftl (Zpos m) e))
  end.

(** [math.floor(f)]: the largest integer not above [f]. *)
Definition float_floor (f : spec_float) : exn + Z :=
  match f with
  | S754_zero _ => inr 0
  | S754_infinity _ => inl OverflowError
  | S754_nan => inl ValueError
  | S754_finite s m e => inr (Z.shiftl (cond_Zopp s (Zpos m)) e)
  end.

(** [float(z)] for a Python [int]. *)
Definition int_to_float (z : Z) : exn + spec_float :=
  match float_of_Z z with
  | S754_infinity _ => inl OverflowError
  | f => inr f
  end.

(** Exact comparison of a float with an integer, as Python compares them. *)
Definition float_compare_Z (f : spec_float) (z : Z) : option comparison :=
  match f with
  | S754_nan => None
  | S754_infinity s => Some (if s then Lt else Gt)
  | S754_zero _ => Some (Z.compare 0 z)
  | S754_finite s m e =>
      let v := cond_Zopp s (Zpos m) in
      Some (if 0 <=? e then Z.compare (v * 2 ^ e) z
            else Z.compare v (z * 2 ^ (- e)))
  end.

Definition num_compare (a b : number) : option comparison :=
  match a, b with
  | Int u, Int v => Some (Z.compare u v)
  | Float f, Float g => SFcompare f g
  | Float f, Int v => float_compare_Z f v
  | Int u, Float g => option_map CompOpp (float_compare_Z g u)
  end.

Definition num_lt (a b : number) : bool :=
  match num_compare a b with Some Lt => true | _ => false end.
Definition num_gt (a b : number) : bool :=
  match num_compare a b with Some Gt => true | _ => false end.
Definition num_le (a b : number) : bool :=
  match num_compare a b with Some Lt | Some Eq => true | _ => false end.
(** Python's [==] on numbers. *)
Definition num_eqb (a b : number) : bool :=
  match num_compare a b with Some Eq => true | _ => false end.

Definition to_float (n : number) : spec_float :=
  match n with Int z => float_of_Z z | Float f => f end.

(** [a * b]: integers multiply exactly; a mixed product converts the integer
    to a float first. *)
Definition num_mul (a b : number) : exn + number :=
  match a, b with
  | Int u, Int v => inr (Int (u * v))
  | Float f, Float g => inr (Float (fmul f g))
  | Float f, Int v =>
      match int_to_float v with inl e => inl e | inr g => inr (Float (fmul f g)) end
  | Int u, Float g =>
      match int_to_float u with inl e => inl e | inr f => inr (Float (fmul f g)) end
  end.

(** The builtin [int]. *)
Definition py_int (a : number) : exn + Z :=
  match a with
  | Int z => inr z
  | Float f => float_trunc f
  end.

(** The builtin [float].  An array is converted through its [__float__]: one
    with a single entry gives [float] of that entry, which is refused for a
    complex entry as for every array of another size. *)
Definition py_float (v : pyobj) : exn + spec_float :=
  match v with
  | PNum (Int z) => int_to_float z
  | PNum (Float f) => inr f
  | PStr _ (Some f) => inr f
  | PStr _ None => inl ValueError
  | PArray a =>
      match data a with
      | [Int z] => if is_complex (dtype_of a) then inl TypeError else int_to_float z
      | [Float f] => if is_complex (dtype_of a) then inl TypeError else inr f
      | _ => inl TypeError
      end
  | _ => inl TypeError
  end.

(** [a // b] on integers. *)
Definition floordiv (a b : Z) : exn + Z :=
  if b =? 0 then inl ZeroDivisionError else inr (a / b).

(** [isinstance(v, int) or isinstance(v, float)]. *)
Definition is_number (v : pyobj) : bool :=
  match v with PNum _ => true | _ => false end.

(** ** Strings *)

Definition lower_ascii (c : ascii) : ascii :=
  let n := N_of_ascii c in
  if ((65 <=? n) && (n <=? 90))%N then ascii_of_N (n + 32) else c.

Fixpoint lower (s : string) : string :=
  match s with
  | EmptyString => EmptyString
  | String c t => String (lower_ascii c) (lower t)
  end.

Definition str_in (s : string) (l : list string) : bool :=
  existsb (String.eqb s) l.

(** ** numpy reductions and grids *)

Definition all_int (l : list number) : bool :=
  forallb (fun n => match n with Int _ => true | Float _ => false end) l.

(** [np.array(l)] of a list of numbers: an integer array when every entry is
    an [int], a float array otherwise. *)
Definition homogeneous (l : list number) : list number :=
  if all_int l then l else map (fun n => Float (to_float n)) l.

Definition fmin (a b : spec_float) : spec_float :=
  if is_nan a then a else if is_nan b then b
  else if SFltb b a then b else a.

Definition fmax (a b : spec_float) : spec_float :=
  if is_nan a then a else if is_nan b then b
  else if SFltb a b then b else a.

Definition num_min2 (a b : number) : number :=
  match a, b with
  | Int u, Int v => Int (Z.min u v)
  | _, _ => Float (fmin (to_float a) (to_float b))
  end.

Definition num_max2 (a b : number) : number :=
  match a, b with
  | Int u, Int v => Int (Z.max u v)
  | _, _ => Float (fmax (to_float a) (to_float b))
  end.

(** [np.min] and [np.max] of the entries; an empty array has no minimum. *)
Definition reduce_min (l : list number) : exn + number :=
  match homogeneous l with
  | [] => inl ValueError
  | a :: t => inr (fold_left num_min2 t a)
  end.

Definition reduce_max (l : list number) : exn + number :=
  match homogeneous l with
  | [] => inl ValueError
  | a :: t => inr (fold_left num_max2 t a)
  end.

Fixpoint seq_numbers (l : list pyobj) : option (list number) :=
  match l with
  | [] => Some []
  | PNum n :: t => option_map (cons n) (seq_numbers t)
  | _ :: _ => None
  end.

(** The entries [np.min(c)] and [np.max(c)] range over. *)
Definition entries (c : pyobj) : exn + list number :=
  match c with
  | PSeq l => match seq_numbers l with Some ns => inr ns | None => inl TypeError end
  | PArray a => inr (data a)
  | PNum n => inr [n]
  | _ => inl TypeError
  end.

Definition np_min (c : pyobj) : exn + number :=
  match entries c with inl e => inl e | inr l => reduce_min l end.

Definition np_max (c : pyobj) : exn + number :=
  match entries c with inl e => inl e | inr l => reduce_max l end.

Definition grid := list (list spec_float).

Fixpoint set_last (l : list spec_float) (v : spec_float) : list spec_float :=
  match l with
  | [] => []
  | [_] => [v]
  | a :: t => a :: set_last t v
  end.

(** [np.linspace(start, stop, num)] with the default [endpoint=True], following
    numpy's implementation: the step is [(stop - start) / (num - 1)], sample
    [i] is [i * step + start], and the last sample is overwritten by [stop]. *)
Definition linspace (start stop : number) (num : Z) : list spec_float :=
  let a := to_float start in
  let b := to_float stop in
  let delta := fsub b a in
  let div := num - 1 in
  let idx := map (fun i => float_of_Z (Z.of_nat i)) (seq 0 (Z.to_nat num)) in
  let ys :=
    if 0 <? div then
      let step := fdiv delta (float_of_Z div) in
      if SFeqb step f_0_0
      then map (fun v => fmul (fdiv v (float_of_Z div)) delta) idx
      else map (fun v => fmul v step) idx
    else map (fun v => fmul v delta) idx in
  let ys := map (fun v => fadd v a) ys in
  if 1 <? num then set_last ys b else ys.

(** [np.tile(row, (n, 1))]: [n] copies of [row], one per grid row. *)
Definition tile_rows (row : list spec_float) (n : Z) : grid :=
  repeat row (Z.to_nat n).

(** [np.tile(col, (n, 1)).T]: entry [j] of [col] repeated along row [j]. *)
Definition tile_cols (col : list spec_float) (n : Z) : grid :=
  map (fun v => repeat v (Z.to_nat n)) col.

(** The rows of a two-dimensional array. *)
Fixpoint chunks (fuel : nat) (w : nat) (l : list number) : list (list number) :=
  match fuel with
  | O => []
  | S k => firstn w l :: chunks k w (skipn w l)
  end.

Definition array_rows (a : ndarray) : list (list number) :=
  match shape a with
  | [h; w] => chunks (Z.to_nat h) (Z.to_nat w) (data a)
  | _ => []
  end.

(** ** The animator object

    One field per attribute of [self] that the configuration logic reads or
    writes.  [ax1] always holds an Axes object, [ax2] holds one or [None]; of
    an Axes it is recorded whether it is still in the figure, because
    [Axes.remove] succeeds once and the colour bar needs the figure of the Axes
    it is drawn beside.  The figure itself is not tracked.  [complex_field] is
    [None] while the attribute has not been created.  The flags [SM], [cont],
    [CB], [arrow], [patch], [point] and [tick] record that the scene attribute
    of that name has been assigned.  [drawn] is the frame whose data the figure
    shows. *)
Inductive axes := Attached | Detached.

Record animator := {
  p : Z;
  which : string;
  grouping : string;
  mode : number;
  marker_type : string;
  marker_size : number;
  marker_colors : gmap string string;
  marker_linewidths : gmap string number;
  marker_transparencies : gmap string number;
  pf_transparency : number;
  colormap : string;
  ax_fc : string;
  ax1 : axes;
  ax2 : option axes;
  marker_density_x : number;
  marker_density_y : number;
  _slc_x : Z;
  _slc_y : Z;
  field : option ndarray;
  nx : option Z;
  ny : option Z;
  nt : option Z;
  x : option grid;
  y : option grid;
  x0 : option number;
  x1 : option number;
  y0 : option number;
  y1 : option number;
  complex_field : option bool;
  SM : bool;
  cont : bool;
  CB : bool;
  arrow : bool;
  patch : bool;
  point : bool;
  tick : bool;
  drawn : option Z
}.

(** Attribute assignment, one function per attribute. *)
Definition upd_p (v : Z) (s : animator) : animator :=
  {| p := v; which := which s; grouping := grouping s; mode := mode s;
     marker_type := marker_type s; marker_size := marker_size s; marker_colors := marker_colors s;
     marker_linewidths := marker_linewidths s; marker_transparencies := marker_transparencies s;
     pf_transparency := pf_transparency s; colormap := colormap s; ax_fc := ax_fc s; ax1 := ax1 s;
     ax2 := ax2 s; marker_density_x := marker_density_x s; marker_density_y := marker_density_y s;
     _slc_x := _slc_x s; _slc_y := _slc_y s; field := field s; nx := nx s; ny := ny s; nt := nt s;
     x := x s; y := y s; x0 := x0 s; x1 := x1 s; y0 := y0 s; y1 := y1 s;
     complex_field := complex_field s; SM := SM s; cont := cont s; CB := CB s; arrow := arrow s;
     patch := patch s; point := point s; tick := tick s; drawn := drawn s |}.

Definition upd_which (v : string) (s : animator) : animator :=
  {| p := p s; which := v; grouping := grouping s; mode := mode s; marker_type := marker_type s;
     marker_size := marker_size s; marker_colors := marker_colors s;
     marker_linewidths := marker_linewidths s; marker_transparencies := marker_transparencies s;
     pf_transparency := pf_transparency s; colormap := colormap s; ax_fc := ax_fc s; ax1 := ax1 s;
     ax2 := ax2 s; marker_density_x := marker_density_x s; marker_density_y := marker_density_y s;
     _slc_x := _slc_x s; _slc_y := _slc_y s; field := field s; nx := nx s; ny := ny s; nt := nt s;
     x := x s; y := y s; x0 := x0 s; x1 := x1 s; y0 := y0 s; y1 := y1 s;
     complex_field := complex_field s; SM := SM s; cont := cont s; CB := CB s; arrow := arrow s;
     patch := patch s; point := point s; tick := tick s; drawn := drawn s |}.

Definition upd_grouping (v : string) (s : animator) : animator :=
  {| p := p s; which := which s; grouping := v; mode := mode s; marker_type := marker_type s;
     marker_size := marker_size s; marker_colors := marker_colors s;
     marker_linewidths := marker_linewidths s; marker_transparencies := marker_transparencies s;
     pf_transparency := pf_transparency s; colormap := colormap s; ax_fc := ax_fc s; ax1 := ax1 s;
     ax2 := ax2 s; marker_density_x := marker_density_x s; marker_density_y := marker_density_y s;
     _slc_x := _slc_x s; _slc_y := _slc_y s; field := field s; nx := nx s; ny := ny s; nt := nt s;
     x := x s; y := y s; x0 := x0 s; x1 := x1 s; y0 := y0 s; y1 := y1 s;
     complex_field := complex_field s; SM := SM s; cont := cont s; CB := CB s; arrow := arrow s;
     patch := patch s; point := point s; tick := tick s; drawn := drawn s |}.

Definition upd_mode (v : number) (s : animator) : animator :=
  {| p := p s; which := which s; grouping := grouping s; mode := v; marker_type := marker_type s;
     marker_size := marker_size s; marker_colors := marker_colors s;
     marker_linewidths := marker_linewidths s; marker_transparencies := marker_transparencies s;
     pf_transparency := pf_transparency s; colormap := colormap s; ax_fc := ax_fc s; ax1 := ax1 s;
     ax2 := ax2 s; marker_density_x := marker_density_x s; marker_density_y := marker_density_y s;
     _slc_x := _slc_x s; _slc_y := _slc_y s; field := field s; nx := nx s; ny := ny s; nt := nt s;
     x := x s; y := y s; x0 := x0 s; x1 := x1 s; y0 := y0 s; y1 := y1 s;
     complex_field := complex_field s; SM := SM s; cont := cont s; CB := CB s; arrow := arrow s;
     patch := patch s; point := point s; tick := tick s; drawn := drawn s |}.

Definition upd_marker_type (v : string) (s : animator) : animator :=
  {| p := p s; which := which s; grouping := grouping s; mode := mode s; marker_type := v;
     marker_size := marker_size s; marker_colors := marker_colors s;
     marker_linewidths := marker_linewidths s; marker_transparencies := marker_transparencies s;
     pf_transparency := pf_transparency s; colormap := colormap s; ax_fc := ax_fc s; ax1 := ax1 s;
     ax2 := ax2 s; marker_density_x := marker_density_x s; marker_density_y := marker_density_y s;
     _slc_x := _slc_x s; _slc_y := _slc_y s; field := field s; nx := nx s; ny := ny s; nt := nt s;
     x := x s; y := y s; x0 := x0 s; x1 := x1 s; y0 := y0 s; y1 := y1 s;
     complex_field := complex_field s; SM := SM s; cont := cont s; CB := CB s; arrow := arrow s;
     patch := patch s; point := point s; tick := tick s; drawn := drawn s |}.

Definition upd_marker_size (v : number) (s : animator) : animator :=
  {| p := p s; which := which s; grouping := grouping s; mode := mode s;
     marker_type := marker_type s; marker_size := v; marker_colors := marker_colors s;
     marker_linewidths := marker_linewidths s; marker_transparencies := marker_transparencies s;
     pf_transparency := pf_transparency s; colormap := colormap s; ax_fc := ax_fc s; ax1 := ax1 s;
     ax2 := ax2 s; marker_density_x := marker_density_x s; marker_density_y := marker_density_y s;
     _slc_x := _slc_x s; _slc_y := _slc_y s; field := field s; nx := nx s; ny := ny s; nt := nt s;
     x := x s; y := y s; x0 := x0 s; x1 := x1 s; y0 := y0 s; y1 := y1 s;
     complex_field := complex_field s; SM := SM s; cont := cont s; CB := CB s; arrow := arrow s;
     patch := patch s; point := point s; tick := tick s; drawn := drawn s |}.

Definition upd_marker_colors (v : gmap string string) (s : animator) : animator :=
  {| p := p s; which := which s; grouping := grouping s; mode := mode s;
     marker_type := marker_type s; marker_size := marker_size s; marker_colors := v;
     marker_linewidths := marker_linewidths s; marker_transparencies := marker_transparencies s;
     pf_transparency := pf_transparency s; colormap := colormap s; ax_fc := ax_fc s; ax1 := ax1 s;
     ax2 := ax2 s; marker_density_x := marker_density_x s; marker_density_y := marker_density_y s;
     _slc_x := _slc_x s; _slc_y := _slc_y s; field := field s; nx := nx s; ny := ny s; nt := nt s;
     x := x s; y := y s; x0 := x0 s; x1 := x1 s; y0 := y0 s; y1 := y1 s;
     complex_field := complex_field s; SM := SM s; cont := cont s; CB := CB s; arrow := arrow s;
     patch := patch s; point := point s; tick := tick s; drawn := drawn s |}.

Definition upd_marker_linewidths (v : gmap string number) (s : animator) : animator :=
  {| p := p s; which := which s; grouping := grouping s; mode := mode s;
     marker_type := marker_type s; marker_size := marker_size s; marker_colors := marker_colors s;
     marker_linewidths := v; marker_transparencies := marker_transparencies s;
     pf_transparency := pf_transparency s; colormap := colormap s; ax_fc := ax_fc s; ax1 := ax1 s;
     ax2 := ax2 s; marker_density_x := marker_density_x s; marker_density_y := marker_density_y s;
     _slc_x := _slc_x s; _slc_y := _slc_y s; field := field s; nx := nx s; ny := ny s; nt := nt s;
     x := x s; y := y s; x0 := x0 s; x1 := x1 s; y0 := y0 s; y1 := y1 s;
     complex_field := complex_field s; SM := SM s; cont := cont s; CB := CB s; arrow := arrow s;
     patch := patch s; point := point s; tick := tick s; drawn := drawn s |}.

Definition upd_marker_transparencies (v : gmap string number) (s : animator) : animator :=
  {| p := p s; which := which s; grouping := grouping s; mode := mode s;
     marker_type := marker_type s; marker_size := marker_size s; marker_colors := marker_colors s;
     marker_linewidths := marker_linewidths s; marker_transparencies := v;
     pf_transparency := pf_transparency s; colormap := colormap s; ax_fc := ax_fc s; ax1 := ax1 s;
     ax2 := ax2 s; marker_density_x := marker_density_x s; marker_density_y := marker_density_y s;
     _slc_x := _slc_x s; _slc_y := _slc_y s; field := field s; nx := nx s; ny := ny s; nt := nt s;
     x := x s; y := y s; x0 := x0 s; x1 := x1 s; y0 := y0 s; y1 := y1 s;
     complex_field := complex_field s; SM := SM s; cont := cont s; CB := CB s; arrow := arrow s;
     patch := patch s; point := point s; tick := tick s; drawn := drawn s |}.

Definition upd_pf_transparency (v : number) (s : animator) : animator :=
  {| p := p s; which := which s; grouping := grouping s; mode := mode s;
     marker_type := marker_type s; marker_size := marker_size s; marker_colors := marker_colors s;
     marker_linewidths := marker_linewidths s; marker_transparencies := marker_transparencies s;
     pf_transparency := v; colormap := colormap s; ax_fc := ax_fc s; ax1 := ax1 s; ax2 := ax2 s;
     marker_density_x := marker_density_x s; marker_density_y := marker_density_y s;
     _slc_x := _slc_x s; _slc_y := _slc_y s; field := field s; nx := nx s; ny := ny s; nt := nt s;
     x := x s; y := y s; x0 := x0 s; x1 := x1 s; y0 := y0 s; y1 := y1 s;
     complex_field := complex_field s; SM := SM s; cont := cont s; CB := CB s; arrow := arrow s;
     patch := patch s; point := point s; tick := tick s; drawn := drawn s |}.

Definition upd_colormap (v : string) (s : animator) : animator :=
  {| p := p s; which := which s; grouping := grouping s; mode := mode s;
     marker_type := marker_type s; marker_size := marker_size s; marker_colors := marker_colors s;
     marker_linewidths := marker_linewidths s; marker_transparencies := marker_transparencies s;
     pf_transparency := pf_transparency s; colormap := v; ax_fc := ax_fc s; ax1 := ax1 s;
     ax2 := ax2 s; marker_density_x := marker_density_x s; marker_density_y := marker_density_y s;
     _slc_x := _slc_x s; _slc_y := _slc_y s; field := field s; nx := nx s; ny := ny s; nt := nt s;
     x := x s; y := y s; x0 := x0 s; x1 := x1 s; y0 := y0 s; y1 := y1 s;
     complex_field := complex_field s; SM := SM s; cont := cont s; CB := CB s; arrow := arrow s;
     patch := patch s; point := point s; tick := tick s; drawn := drawn s |}.

Definition upd_ax_fc (v : string) (s : animator) : animator :=
  {| p := p s; which := which s; grouping := grouping s; mode := mode s;
     marker_type := marker_type s; marker_size := marker_size s; marker_colors := marker_colors s;
     marker_linewidths := marker_linewidths s; marker_transparencies := marker_transparencies s;
     pf_transparency := pf_transparency s; colormap := colormap s; ax_fc := v; ax1 := ax1 s;
     ax2 := ax2 s; marker_density_x := marker_density_x s; marker_density_y := marker_density_y s;
     _slc_x := _slc_x s; _slc_y := _slc_y s; field := field s; nx := nx s; ny := ny s; nt := nt s;
     x := x s; y := y s; x0 := x0 s; x1 := x1 s; y0 := y0 s; y1 := y1 s;
     complex_field := complex_field s; SM := SM s; cont := cont s; CB := CB s; arrow := arrow s;
     patch := patch s; point := point s; tick := tick s; drawn := drawn s |}.

Definition upd_ax1 (v : axes) (s : animator) : animator :=
  {| p := p s; which := which s; grouping := grouping s; mode := mode s;
     marker_type := marker_type s; marker_size := marker_size s; marker_colors := marker_colors s;
     marker_linewidths := marker_linewidths s; marker_transparencies := marker_transparencies s;
     pf_transparency := pf_transparency s; colormap := colormap s; ax_fc := ax_fc s; ax1 := v;
     ax2 := ax2 s; marker_density_x := marker_density_x s; marker_density_y := marker_density_y s;
     _slc_x := _slc_x s; _slc_y := _slc_y s; field := field s; nx := nx s; ny := ny s; nt := nt s;
     x := x s; y := y s; x0 := x0 s; x1 := x1 s; y0 := y0 s; y1 := y1 s;
     complex_field := complex_field s; SM := SM s; cont := cont s; CB := CB s; arrow := arrow s;
     patch := patch s; point := point s; tick := tick s; drawn := drawn s |}.

Definition upd_ax2 (v : option axes) (s : animator) : animator :=
  {| p := p s; which := which s; grouping := grouping s; mode := mode s;
     marker_type := marker_type s; marker_size := marker_size s; marker_colors := marker_colors s;
     marker_linewidths := marker_linewidths s; marker_transparencies := marker_transparencies s;
     pf_transparency := pf_transparency s; colormap := colormap s; ax_fc := ax_fc s; ax1 := ax1 s;
     ax2 := v; marker_density_x := marker_density_x s; marker_density_y := marker_density_y s;
     _slc_x := _slc_x s; _slc_y := _slc_y s; field := field s; nx := nx s; ny := ny s; nt := nt s;
     x := x s; y := y s; x0 := x0 s; x1 := x1 s; y0 := y0 s; y1 := y1 s;
     complex_field := complex_field s; SM := SM s; cont := cont s; CB := CB s; arrow := arrow s;
     patch := patch s; point := point s; tick := tick s; drawn := drawn s |}.

Definition upd_marker_density_x (v : number) (s : animator) : animator :=
  {| p := p s; which := which s; grouping := grouping s; mode := mode s;
     marker_type := marker_type s; marker_size := marker_size s; marker_colors := marker_colors s;
     marker_linewidths := marker_linewidths s; marker_transparencies := marker_transparencies s;
     pf_transparency := pf_transparency s; colormap := colormap s; ax_fc := ax_fc s; ax1 := ax1 s;
     ax2 := ax2 s; marker_density_x := v; marker_density_y := marker_density_y s;
     _slc_x := _slc_x s; _slc_y := _slc_y s; field := field s; nx := nx s; ny := ny s; nt := nt s;
     x := x s; y := y s; x0 := x0 s; x1 := x1 s; y0 := y0 s; y1 := y1 s;
     complex_field := complex_field s; SM := SM s; cont := cont s; CB := CB s; arrow := arrow s;
     patch := patch s; point := point s; tick := tick s; drawn := drawn s |}.

Definition upd_marker_density_y (v : number) (s : animator) : animator :=
  {| p := p s; which := which s; grouping := grouping s; mode := mode s;
     marker_type := marker_type s; marker_size := marker_size s; marker_colors := marker_colors s;
     marker_linewidths := marker_linewidths s; marker_transparencies := marker_transparencies s;
     pf_transparency := pf_transparency s; colormap := colormap s; ax_fc := ax_fc s; ax1 := ax1 s;
     ax2 := ax2 s; marker_density_x := marker_density_x s; marker_density_y := v;
     _slc_x := _slc_x s; _slc_y := _slc_y s; field := field s; nx := nx s; ny := ny s; nt := nt s;
     x := x s; y := y s; x0 := x0 s; x1 := x1 s; y0 := y0 s; y1 := y1 s;
     complex_field := complex_field s; SM := SM s; cont := cont s; CB := CB s; arrow := arrow s;
     patch := patch s; point := point s; tick := tick s; drawn := drawn s |}.

Definition upd_slc_x (v : Z) (s : animator) : animator :=
  {| p := p s; which := which s; grouping := grouping s; mode := mode s;
     marker_type := marker_type s; marker_size := marker_size s; marker_colors := marker_colors s;
     marker_linewidths := marker_linewidths s; marker_transparencies := marker_transparencies s;
     pf_transparency := pf_transparency s; colormap := colormap s; ax_fc := ax_fc s; ax1 := ax1 s;
     ax2 := ax2 s; marker_density_x := marker_density_x s; marker_density_y := marker_density_y s;
     _slc_x := v; _slc_y := _slc_y s; field := field s; nx := nx s; ny := ny s; nt := nt s;
     x := x s; y := y s; x0 := x0 s; x1 := x1 s; y0 := y0 s; y1 := y1 s;
     complex_field := complex_field s; SM := SM s; cont := cont s; CB := CB s; arrow := arrow s;
     patch := patch s; point := point s; tick := tick s; drawn := drawn s |}.

Definition upd_slc_y (v : Z) (s : animator) : animator :=
  {| p := p s; which := which s; grouping := grouping s; mode := mode s;
     marker_type := marker_type s; marker_size := marker_size s; marker_colors := marker_colors s;
     marker_linewidths := marker_linewidths s; marker_transparencies := marker_transparencies s;
     pf_transparency := pf_transparency s; colormap := colormap s; ax_fc := ax_fc s; ax1 := ax1 s;
     ax2 := ax2 s; marker_density_x := marker_density_x s; marker_density_y := marker_density_y s;
     _slc_x := _slc_x s; _slc_y := v; field := field s; nx := nx s; ny := ny s; nt := nt s;
     x := x s; y := y s; x0 := x0 s; x1 := x1 s; y0 := y0 s; y1 := y1 s;
     complex_field := complex_field s; SM := SM s; cont := cont s; CB := CB s; arrow := arrow s;
     patch := patch s; point := point s; tick := tick s; drawn := drawn s |}.

Definition upd_field (v : option ndarray) (s : animator) : animator :=
  {| p := p s; which := which s; grouping := grouping s; mode := mode s;
     marker_type := marker_type s; marker_size := marker_size s; marker_colors := marker_colors s;
     marker_linewidths := marker_linewidths s; marker_transparencies := marker_transparencies s;
     pf_transparency := pf_transparency s; colormap := colormap s; ax_fc := ax_fc s; ax1 := ax1 s;
     ax2 := ax2 s; marker_density_x := marker_density_x s; marker_density_y := marker_density_y s;
     _slc_x := _slc_x s; _slc_y := _slc_y s; field := v; nx := nx s; ny := ny s; nt := nt s;
     x := x s; y := y s; x0 := x0 s; x1 := x1 s; y0 := y0 s; y1 := y1 s;
     complex_field := complex_field s; SM := SM s; cont := cont s; CB := CB s; arrow := arrow s;
     patch := patch s; point := point s; tick := tick s; drawn := drawn s |}.

Definition upd_nx (v : option Z) (s : animator) : animator :=
  {| p := p s; which := which s; grouping := grouping s; mode := mode s;
     marker_type := marker_type s; marker_size := marker_size s; marker_colors := marker_colors s;
     marker_linewidths := marker_linewidths s; marker_transparencies := marker_transparencies s;
     pf_transparency := pf_transparency s; colormap := colormap s; ax_fc := ax_fc s; ax1 := ax1 s;
     ax2 := ax2 s; marker_density_x := marker_density_x s; marker_density_y := marker_density_y s;
     _slc_x := _slc_x s; _slc_y := _slc_y s; field := field s; nx := v; ny := ny s; nt := nt s;
     x := x s; y := y s; x0 := x0 s; x1 := x1 s; y0 := y0 s; y1 := y1 s;
     complex_field := complex_field s; SM := SM s; cont := cont s; CB := CB s; arrow := arrow s;
     patch := patch s; point := point s; tick := tick s; drawn := drawn s |}.

Definition upd_ny (v : option Z) (s : animator) : animator :=
  {| p := p s; which := which s; grouping := grouping s; mode := mode s;
     marker_type := marker_type s; marker_size := marker_size s; marker_colors := marker_colors s;
     marker_linewidths := marker_linewidths s; marker_transparencies := marker_transparencies s;
     pf_transparency := pf_transparency s; colormap := colormap s; ax_fc := ax_fc s; ax1 := ax1 s;
     ax2 := ax2 s; marker_density_x := marker_density_x s; marker_density_y := marker_density_y s;
     _slc_x := _slc_x s; _slc_y := _slc_y s; field := field s; nx := nx s; ny := v; nt := nt s;
     x := x s; y := y s; x0 := x0 s; x1 := x1 s; y0 := y0 s; y1 := y1 s;
     complex_field := complex_field s; SM := SM s; cont := cont s; CB := CB s; arrow := arrow s;
     patch := patch s; point := point s; tick := tick s; drawn := drawn s |}.

Definition upd_nt (v : option Z) (s : animator) : animator :=
  {| p := p s; which := which s; grouping := grouping s; mode := mode s;
     marker_type := marker_type s; marker_size := marker_size s; marker_colors := marker_colors s;
     marker_linewidths := marker_linewidths s; marker_transparencies := marker_transparencies s;
     pf_transparency := pf_transparency s; colormap := colormap s; ax_fc := ax_fc s; ax1 := ax1 s;
     ax2 := ax2 s; marker_density_x := marker_density_x s; marker_density_y := marker_density_y s;
     _slc_x := _slc_x s; _slc_y := _slc_y s; field := field s; nx := nx s; ny := ny s; nt := v;
     x := x s; y := y s; x0 := x0 s; x1 := x1 s; y0 := y0 s; y1 := y1 s;
     complex_field := complex_field s; SM := SM s; cont := cont s; CB := CB s; arrow := arrow s;
     patch := patch s; point := point s; tick := tick s; drawn := drawn s |}.

Definition upd_x (v : option grid) (s : animator) : animator :=
  {| p := p s; which := which s; grouping := grouping s; mode := mode s;
     marker_type := marker_type s; marker_size := marker_size s; marker_colors := marker_colors s;
     marker_linewidths := marker_linewidths s; marker_transparencies := marker_transparencies s;
     pf_transparency := pf_transparency s; colormap := colormap s; ax_fc := ax_fc s; ax1 := ax1 s;
     ax2 := ax2 s; marker_density_x := marker_density_x s; marker_density_y := marker_density_y s;
     _slc_x := _slc_x s; _slc_y := _slc_y s; field := field s; nx := nx s; ny := ny s; nt := nt s;
     x := v; y := y s; x0 := x0 s; x1 := x1 s; y0 := y0 s; y1 := y1 s;
     complex_field := complex_field s; SM := SM s; cont := cont s; CB := CB s; arrow := arrow s;
     patch := patch s; point := point s; tick := tick s; drawn := drawn s |}.

Definition upd_y (v : option grid) (s : animator) : animator :=
  {| p := p s; which := which s; grouping := grouping s; mode := mode s;
     marker_type := marker_type s; marker_size := marker_size s; marker_colors := marker_colors s;
     marker_linewidths := marker_linewidths s; marker_transparencies := marker_transparencies s;
     pf_transparency := pf_transparency s; colormap := colormap s; ax_fc := ax_fc s; ax1 := ax1 s;
     ax2 := ax2 s; marker_density_x := marker_density_x s; marker_density_y := marker_density_y s;
     _slc_x := _slc_x s; _slc_y := _slc_y s; field := field s; nx := nx s; ny := ny s; nt := nt s;
     x := x s; y := v; x0 := x0 s; x1 := x1 s; y0 := y0 s; y1 := y1 s;
     complex_field := complex_field s; SM := SM s; cont := cont s; CB := CB s; arrow := arrow s;
     patch := patch s; point := point s; tick := tick s; drawn := drawn s |}.

Definition upd_x0 (v : option number) (s : animator) : animator :=
  {| p := p s; which := which s; grouping := grouping s; mode := mode s;
     marker_type := marker_type s; marker_size := marker_size s; marker_colors := marker_colors s;
     marker_linewidths := marker_linewidths s; marker_transparencies := marker_transparencies s;
     pf_transparency := pf_transparency s; colormap := colormap s; ax_fc := ax_fc s; ax1 := ax1 s;
     ax2 := ax2 s; marker_density_x := marker_density_x s; marker_density_y := marker_density_y s;
     _slc_x := _slc_x s; _slc_y := _slc_y s; field := field s; nx := nx s; ny := ny s; nt := nt s;
     x := x s; y := y s; x0 := v; x1 := x1 s; y0 := y0 s; y1 := y1 s;
     complex_field := complex_field s; SM := SM s; cont := cont s; CB := CB s; arrow := arrow s;
     patch := patch s; point := point s; tick := tick s; drawn := drawn s |}.

Definition upd_x1 (v : option number) (s : animator) : animator :=
  {| p := p s; which := which s; grouping := grouping s; mode := mode s;
     marker_type := marker_type s; marker_size := marker_size s; marker_colors := marker_colors s;
     marker_linewidths := marker_linewidths s; marker_transparencies := marker_transparencies s;
     pf_transparency := pf_transparency s; colormap := colormap s; ax_fc := ax_fc s; ax1 := ax1 s;
     ax2 := ax2 s; marker_density_x := marker_density_x s; marker_density_y := marker_density_y s;
     _slc_x := _slc_x s; _slc_y := _slc_y s; field := field s; nx := nx s; ny := ny s; nt := nt s;
     x := x s; y := y s; x0 := x0 s; x1 := v; y0 := y0 s; y1 := y1 s;
     complex_field := complex_field s; SM := SM s; cont := cont s; CB := CB s; arrow := arrow s;
     patch := patch s; point := point s; tick := tick s; drawn := drawn s |}.

Definition upd_y0 (v : option number) (s : animator) : animator :=
  {| p := p s; which := which s; grouping := grouping s; mode := mode s;
     marker_type := marker_type s; marker_size := marker_size s; marker_colors := marker_colors s;
     marker_linewidths := marker_linewidths s; marker_transparencies := marker_transparencies s;
     pf_transparency := pf_transparency s; colormap := colormap s; ax_fc := ax_fc s; ax1 := ax1 s;
     ax2 := ax2 s; marker_density_x := marker_density_x s; marker_density_y := marker_density_y s;
     _slc_x := _slc_x s; _slc_y := _slc_y s; field := field s; nx := nx s; ny := ny s; nt := nt s;
     x := x s; y := y s; x0 := x0 s; x1 := x1 s; y0 := v; y1 := y1 s;
     complex_field := complex_field s; SM := SM s; cont := cont s; CB := CB s; arrow := arrow s;
     patch := patch s; point := point s; tick := tick s; drawn := drawn s |}.

Definition upd_y1 (v : option number) (s : animator) : animator :=
  {| p := p s; which := which s; grouping := grouping s; mode := mode s;
     marker_type := marker_type s; marker_size := marker_size s; marker_colors := marker_colors s;
     marker_linewidths := marker_linewidths s; marker_transparencies := marker_transparencies s;
     pf_transparency := pf_transparency s; colormap := colormap s; ax_fc := ax_fc s; ax1 := ax1 s;
     ax2 := ax2 s; marker_density_x := marker_density_x s; marker_density_y := marker_density_y s;
     _slc_x := _slc_x s; _slc_y := _slc_y s; field := field s; nx := nx s; ny := ny s; nt := nt s;
     x := x s; y := y s; x0 := x0 s; x1 := x1 s; y0 := y0 s; y1 := v;
     complex_field := complex_field s; SM := SM s; cont := cont s; CB := CB s; arrow := arrow s;
     patch := patch s; point := point s; tick := tick s; drawn := drawn s |}.

Definition upd_complex_field (v : option bool) (s : animator) : animator :=
  {| p := p s; which := which s; grouping := grouping s; mode := mode s;
     marker_type := marker_type s; marker_size := marker_size s; marker_colors := marker_colors s;
     marker_linewidths := marker_linewidths s; marker_transparencies := marker_transparencies s;
     pf_transparency := pf_transparency s; colormap := colormap s; ax_fc := ax_fc s; ax1 := ax1 s;
     ax2 := ax2 s; marker_density_x := marker_density_x s; marker_density_y := marker_density_y s;
     _slc_x := _slc_x s; _slc_y := _slc_y s; field := field s; nx := nx s; ny := ny s; nt := nt s;
     x := x s; y := y s; x0 := x0 s; x1 := x1 s; y0 := y0 s; y1 := y1 s; complex_field := v;
     SM := SM s; cont := cont s; CB := CB s; arrow := arrow s; patch := patch s; point := point s;
     tick := tick s; drawn := drawn s |}.

Definition upd_SM (v : bool) (s : animator) : animator :=
  {| p := p s; which := which s; grouping := grouping s; mode := mode s;
     marker_type := marker_type s; marker_size := marker_size s; marker_colors := marker_colors s;
     marker_linewidths := marker_linewidths s; marker_transparencies := marker_transparencies s;
     pf_transparency := pf_transparency s; colormap := colormap s; ax_fc := ax_fc s; ax1 := ax1 s;
     ax2 := ax2 s; marker_density_x := marker_density_x s; marker_density_y := marker_density_y s;
     _slc_x := _slc_x s; _slc_y := _slc_y s; field := field s; nx := nx s; ny := ny s; nt := nt s;
     x := x s; y := y s; x0 := x0 s; x1 := x1 s; y0 := y0 s; y1 := y1 s;
     complex_field := complex_field s; SM := v; cont := cont s; CB := CB s; arrow := arrow s;
     patch := patch s; point := point s; tick := tick s; drawn := drawn s |}.

Definition upd_cont (v : bool) (s : animator) : animator :=
  {| p := p s; which := which s; grouping := grouping s; mode := mode s;
     marker_type := marker_type s; marker_size := marker_size s; marker_colors := marker_colors s;
     marker_linewidths := marker_linewidths s; marker_transparencies := marker_transparencies s;
     pf_transparency := pf_transparency s; colormap := colormap s; ax_fc := ax_fc s; ax1 := ax1 s;
     ax2 := ax2 s; marker_density_x := marker_density_x s; marker_density_y := marker_density_y s;
     _slc_x := _slc_x s; _slc_y := _slc_y s; field := field s; nx := nx s; ny := ny s; nt := nt s;
     x := x s; y := y s; x0 := x0 s; x1 := x1 s; y0 := y0 s; y1 := y1 s;
     complex_field := complex_field s; SM := SM s; cont := v; CB := CB s; arrow := arrow s;
     patch := patch s; point := point s; tick := tick s; drawn := drawn s |}.

Definition upd_CB (v : bool) (s : animator) : animator :=
  {| p := p s; which := which s; grouping := grouping s; mode := mode s;
     marker_type := marker_type s; marker_size := marker_size s; marker_colors := marker_colors s;
     marker_linewidths := marker_linewidths s; marker_transparencies := marker_transparencies s;
     pf_transparency := pf_transparency s; colormap := colormap s; ax_fc := ax_fc s; ax1 := ax1 s;
     ax2 := ax2 s; marker_density_x := marker_density_x s; marker_density_y := marker_density_y s;
     _slc_x := _slc_x s; _slc_y := _slc_y s; field := field s; nx := nx s; ny := ny s; nt := nt s;
     x := x s; y := y s; x0 := x0 s; x1 := x1 s; y0 := y0 s; y1 := y1 s;
     complex_field := complex_field s; SM := SM s; cont := cont s; CB := v; arrow := arrow s;
     patch := patch s; point := point s; tick := tick s; drawn := drawn s |}.

Definition upd_arrow (v : bool) (s : animator) : animator :=
  {| p := p s; which := which s; grouping := grouping s; mode := mode s;
     marker_type := marker_type s; marker_size := marker_size s; marker_colors := marker_colors s;
     marker_linewidths := marker_linewidths s; marker_transparencies := marker_transparencies s;
     pf_transparency := pf_transparency s; colormap := colormap s; ax_fc := ax_fc s; ax1 := ax1 s;
     ax2 := ax2 s; marker_density_x := marker_density_x s; marker_density_y := marker_density_y s;
     _slc_x := _slc_x s; _slc_y := _slc_y s; field := field s; nx := nx s; ny := ny s; nt := nt s;
     x := x s; y := y s; x0 := x0 s; x1 := x1 s; y0 := y0 s; y1 := y1 s;
     complex_field := complex_field s; SM := SM s; cont := cont s; CB := CB s; arrow := v;
     patch := patch s; point := point s; tick := tick s; drawn := drawn s |}.

Definition upd_patch (v : bool) (s : animator) : animator :=
  {| p := p s; which := which s; grouping := grouping s; mode := mode s;
     marker_type := marker_type s; marker_size := marker_size s; marker_colors := marker_colors s;
     marker_linewidths := marker_linewidths s; marker_transparencies := marker_transparencies s;
     pf_transparency := pf_transparency s; colormap := colormap s; ax_fc := ax_fc s; ax1 := ax1 s;
     ax2 := ax2 s; marker_density_x := marker_density_x s; marker_density_y := marker_density_y s;
     _slc_x := _slc_x s; _slc_y := _slc_y s; field := field s; nx := nx s; ny := ny s; nt := nt s;
     x := x s; y := y s; x0 := x0 s; x1 := x1 s; y0 := y0 s; y1 := y1 s;
     complex_field := complex_field s; SM := SM s; cont := cont s; CB := CB s; arrow := arrow s;
     patch := v; point := point s; tick := tick s; drawn := drawn s |}.

Definition upd_point (v : bool) (s : animator) : animator :=
  {| p := p s; which := which s; grouping := grouping s; mode := mode s;
     marker_type := marker_type s; marker_size := marker_size s; marker_colors := marker_colors s;
     marker_linewidths := marker_linewidths s; marker_transparencies := marker_transparencies s;
     pf_transparency := pf_transparency s; colormap := colormap s; ax_fc := ax_fc s; ax1 := ax1 s;
     ax2 := ax2 s; marker_density_x := marker_density_x s; marker_density_y := marker_density_y s;
     _slc_x := _slc_x s; _slc_y := _slc_y s; field := field s; nx := nx s; ny := ny s; nt := nt s;
     x := x s; y := y s; x0 := x0 s; x1 := x1 s; y0 := y0 s; y1 := y1 s;
     complex_field := complex_field s; SM := SM s; cont := cont s; CB := CB s; arrow := arrow s;
     patch := patch s; point := v; tick := tick s; drawn := drawn s |}.

Definition upd_tick (v : bool) (s : animator) : animator :=
  {| p := p s; which := which s; grouping := grouping s; mode := mode s;
     marker_type := marker_type s; marker_size := marker_size s; marker_colors := marker_colors s;
     marker_linewidths := marker_linewidths s; marker_transparencies := marker_transparencies s;
     pf_transparency := pf_transparency s; colormap := colormap s; ax_fc := ax_fc s; ax1 := ax1 s;
     ax2 := ax2 s; marker_density_x := marker_density_x s; marker_density_y := marker_density_y s;
     _slc_x := _slc_x s; _slc_y := _slc_y s; field := field s; nx := nx s; ny := ny s; nt := nt s;
     x := x s; y := y s; x0 := x0 s; x1 := x1 s; y0 := y0 s; y1 := y1 s;
     complex_field := complex_field s; SM := SM s; cont := cont s; CB := CB s; arrow := arrow s;
     patch := patch s; point := point s; tick := v; drawn := drawn s |}.

Definition upd_drawn (v : option Z) (s : animator) : animator :=
  {| p := p s; which := which s; grouping := grouping s; mode := mode s;
     marker_type := marker_type s; marker_size := marker_size s; marker_colors := marker_colors s;
     marker_linewidths := marker_linewidths s; marker_transparencies := marker_transparencies s;
     pf_transparency := pf_transparency s; colormap := colormap s; ax_fc := ax_fc s; ax1 := ax1 s;
     ax2 := ax2 s; marker_density_x := marker_density_x s; marker_density_y := marker_density_y s;
     _slc_x := _slc_x s; _slc_y := _slc_y s; field := field s; nx := nx s; ny := ny s; nt := nt s;
     x := x s; y := y s; x0 := x0 s; x1 := x1 s; y0 := y0 s; y1 := y1 s;
     complex_field := complex_field s; SM := SM s; cont := cont s; CB := CB s; arrow := arrow s;
     patch := patch s; point := point s; tick := tick s; drawn := v |}.

(** ** Methods: state with exceptions

    A method body is a function from the object to a result and the object as
    the body left it.  An exception stops the body at once, and the attributes
    assigned before it keep their new values. *)

Definition M (A : Type) : Type := animator -> (exn + A) * animator.

Global Instance err_ret : MRet (sum exn) := fun A a => inr a.
Global Instance err_bind : MBind (sum exn) := fun A B f r =>
  match r with inl e => inl e | inr a => f a end.

Global Instance M_ret : MRet M := fun A a s => (inr a, s).
Global Instance M_bind : MBind M := fun A B f m s =>
  match m s with
  | (inr a, s') => f a s'
  | (inl e, s') => (inl e, s')
  end.

Definition get {A} (f : animator -> A) : M A := fun s => (inr (f s), s).
Definition assign (u : animator -> animator) : M unit := fun s => (inr tt, u s).
Definition raise {A} (e : exn) : M A := fun s => (inl e, s).
Definition lift {A} (r : exn + A) : M A := fun s => (r, s).

(** [try: body except: handler] with a bare [except]. *)
Definition try_except {A} (body handler : M A) : M A := fun s =>
  match body s with
  | (inl _, s') => handler s'
  | r => r
  end.

(** Reading an attribute that may not have been created. *)
Definition attr {A} (f : animator -> option A) : M A := fun s =>
  match f s with
  | Some a => (inr a, s)
  | None => (inl AttributeError, s)
  end.

(** Using a scene attribute ([self.cont], [self.CB], ...). *)
Definition scene (f : animator -> bool) : M unit := fun s =>
  if f s then (inr tt, s) else (inl AttributeError, s).

(** An operand that must not be [None]. *)
Definition operand {A} (f : animator -> option A) : M A := fun s =>
  match f s with
  | Some a => (inr a, s)
  | None => (inl TypeError, s)
  end.

(** The object a method leaves behind, whether it returned or raised. *)
Definition state_of {A} (r : (exn + A) * animator) : animator := snd r.

Definition returned {A} (r : (exn + A) * animator) : Prop :=
  exists a, fst r = inr a.

Definition raised {A} (e : exn) (r : (exn + A) * animator) : Prop :=
  fst r = inl e.

Notation "a ==? b" := (String.eqb a b) (at level 70, no associativity).

Definition set_linewidth (k : string) (v : number) : M unit :=
  assign (fun s => upd_marker_linewidths (<[k := v]> (marker_linewidths s)) s).
Definition set_transparency (k : string) (v : number) : M unit :=
  assign (fun s => upd_marker_transparencies (<[k := v]> (marker_transparencies s)) s).
Definition set_color (k : string) (v : string) : M unit :=
  assign (fun s => upd_marker_colors (<[k := v]> (marker_colors s)) s).

Definition _marker_types : list string :=
  ["patch"; "point"; "tick"; "patch & point"; "patch & tick"; "point & tick"; "all"].
Definition _which_list : list string := ["pf"; "op"; "both"].
Definition _grouping_list : list string := ["separate"; "together"].
Definition _mode_list : list number := [Int 0; Int 1; Int 2].

(** [v in self._mode_list], by Python's [==]. *)
Definition in_mode_list (v : pyobj) : option number :=
  match v with
  | PNum n => if existsb (num_eqb n) _mode_list then Some n else None
  | _ => None
  end.

Definition opt_obj (o : option number) : pyobj :=
  match o with Some n => PNum n | None => PNone end.

(** [self.n // int(density * self.n)], the stride between two markers. *)
Definition stride (density : number) (n : option Z) : exn + Z :=
  match n with
  | None => inl TypeError
  | Some k =>
      prod ← num_mul density (Int k);
      d ← py_int prod;
      floordiv k d
  end.

Definition _check_phi (fld : pyobj) : M unit :=
  match fld with
  | PArray a =>
      if negb (length (shape a) =? 3)%nat then raise Exception
      else
        match dtype_of a with
        | Dcomplex128 => assign (upd_complex_field (Some true))
        | _ => assign (upd_complex_field (Some false))
        end
  | _ => raise TypeError
  end.

Definition _check_coordinate (c : pyobj) : M unit :=
  match c with
  | PSeq l =>
      if negb (length l =? 2)%nat then raise ValueError
      else if negb (forallb is_number l) then raise ValueError
      else
        match l with
        | [PNum c0; PNum c1] => if num_le c1 c0 then raise ValueError else mret tt
        | _ => mret tt
        end
  | PArray a =>
      fld ← get field;
      if (2 <? length (shape a))%nat then raise Exception
      else
        match fld with
        | Some f =>
            if (length (shape a) =? 2)%nat && negb (bool_decide (shape a = tail (shape f)))
            then raise Exception else mret tt
        | None => mret tt
        end
  | _ => raise TypeError
  end.

Definition meshgrid (lx ly : list spec_float) : grid * grid :=
  (tile_rows lx (Z.of_nat (length ly)), tile_cols ly (Z.of_nat (length lx))).

Definition _set_grid_from_coordinate (c : pyobj) (wh : string) : M unit :=
  if wh ==? "x" then
    lo ← lift (np_min c); assign (upd_x0 (Some lo));;
    hi ← lift (np_max c); assign (upd_x1 (Some hi));;
    n ← operand nx; m ← operand ny;
    assign (upd_x (Some (tile_rows (linspace lo hi n) m)))
  else if wh ==? "y" then
    lo ← lift (np_min c); assign (upd_y0 (Some lo));;
    hi ← lift (np_max c); assign (upd_y1 (Some hi));;
    m ← operand ny; n ← operand nx;
    assign (upd_y (Some (tile_cols (linspace lo hi m) n)))
  else if wh ==? "both" then
    lo ← lift (np_min c); assign (upd_x0 (Some lo));;
    hi ← lift (np_max c); assign (upd_x1 (Some hi));;
    lo' ← lift (np_min c); assign (upd_y0 (Some lo'));;
    hi' ← lift (np_max c); assign (upd_y1 (Some hi'));;
    n ← operand nx; m ← operand ny;
    let g := meshgrid (linspace lo hi n) (linspace lo' hi' m) in
    assign (upd_x (Some (fst g)));; assign (upd_y (Some (snd g)))
  else mret tt.

Definition _set_default_grid : M unit :=
  assign (upd_x0 (Some (Int 0)));; assign (upd_x1 (Some (Int 1)));;
  assign (upd_y0 (Some (Int 0)));; assign (upd_y1 (Some (Int 1)));;
  n ← operand nx; m ← operand ny;
  let g := meshgrid (linspace (Int 0) (Int 1) n) (linspace (Int 0) (Int 1) m) in
  assign (upd_x (Some (fst g)));; assign (upd_y (Some (snd g))).

(** The branch of [_set_marker_size] for [p < 3]: both line widths, then the
    size. *)
Definition thin_markers (lw : spec_float) (size : Z) : M unit :=
  set_linewidth "point" (Float lw);;
  set_linewidth "tick" (Float lw);;
  assign (upd_marker_size (Int size)).

(** The first two statements of [_set_marker_size]: the number [N] of markers
    along the longer axis. *)
Definition marker_count : M Z :=
  ox ← get nx; oy ← get ny;
  match ox, oy with
  | Some nx_, Some ny_ =>
      let nmax := Z.max nx_ ny_ in
      dx ← get marker_density_x; dy ← get marker_density_y;
      lift (prod ← num_mul (if nx_ >=? ny_ then dx else dy) (Int nmax); py_int prod)
  | _, _ => raise TypeError
  end.

(** The cascade of tests on [N] that follows. *)
Definition size_by_count (N deg : Z) : M unit :=
  if (10 <=? N) && (N <=? 60) then
    if (10 <=? N) && (N <? 20) then
      if 3 <=? deg then assign (upd_marker_size (Int 140)) else thin_markers f_1_75 140
    else if (20 <=? N) && (N <? 30) then
      if 3 <=? deg then assign (upd_marker_size (Int 100)) else thin_markers f_1_0 140
    else if (30 <=? N) && (N <? 40) then
      if 3 <=? deg then assign (upd_marker_size (Int 60)) else thin_markers f_0_85 60
    else if (40 <=? N) && (N <? 50) then
      if 3 <=? deg then assign (upd_marker_size (Int 30)) else thin_markers f_0_85 45
    else if (50 <=? N) && (N <=? 60) then
      if 3 <=? deg then assign (upd_marker_size (Int 20)) else thin_markers f_0_85 30
    else mret tt
  else if N <? 10 then
    if 3 <=? deg then assign (upd_marker_size (Int 140)) else thin_markers f_1_75 140
  else if 60 <? N then
    if 3 <=? deg then assign (upd_marker_size (Int 20)) else thin_markers f_0_85 30
  else mret tt.

Definition _set_marker_size : M unit :=
  N ← marker_count;
  deg ← get p;
  size_by_count N deg.

(** The attribute values [__init__] assigns before it looks at [field]. *)
Definition fresh (deg : Z) : animator :=
  {| p := deg; which := "pf"; grouping := "together"; mode := Int 0;
     marker_type := "all"; marker_size := Int 500;
     marker_colors := <["patch" := "k"]> (<["point" := "k"]> (<["tick" := "r"]> ∅));
     marker_linewidths :=
       <["patch" := Int 0]> (<["point" := Float f_0_2]> (<["tick" := Float f_0_5]> ∅));
     marker_transparencies :=
       <["patch" := Float f_0_5]> (<["point" := Float f_1_0]> (<["tick" := Float f_1_0]> ∅));
     pf_transparency := Float f_1_0; colormap := "twilight"; ax_fc := "whitesmoke";
     ax1 := Attached; ax2 := None;
     marker_density_x := Float f_0_1; marker_density_y := Float f_0_1;
     _slc_x := 1; _slc_y := 1;
     field := None; nx := None; ny := None; nt := None; x := None; y := None;
     x0 := None; x1 := None; y0 := None; y1 := None;
     complex_field := None;
     SM := false; cont := false; CB := false; arrow := false;
     patch := false; point := false; tick := false; drawn := None |}.

(** Storing the limits of one coordinate argument on both axes. *)
Definition limits_from (c : pyobj) : M unit :=
  _check_coordinate c;;
  lo ← lift (np_min c); assign (upd_x0 (Some lo));;
  hi ← lift (np_max c); assign (upd_x1 (Some hi));;
  lo' ← lift (np_min c); assign (upd_y0 (Some lo'));;
  hi' ← lift (np_max c); assign (upd_y1 (Some hi')).

Definition init_body (fld cx cy : pyobj) : M unit :=
  match fld with
  | PNone =>
      match cx, cy with
      | PNone, PNone => mret tt
      | _, PNone => limits_from cx
      | PNone, _ => limits_from cy
      | _, _ =>
          _check_coordinate cx;; _check_coordinate cy;;
          lo ← lift (np_min cx); assign (upd_x0 (Some lo));;
          hi ← lift (np_max cx); assign (upd_x1 (Some hi));;
          lo' ← lift (np_min cy); assign (upd_y0 (Some lo'));;
          hi' ← lift (np_max cy); assign (upd_y1 (Some hi'))
      end
  | _ =>
      _check_phi fld;;
      match fld with
      | PArray a =>
          assign (upd_nx (Some (nth 2 (shape a) 0)));;
          assign (upd_ny (Some (nth 1 (shape a) 0)));;
          assign (upd_nt (Some (nth 0 (shape a) 0)));;
          assign (upd_field (Some a));;
          dx ← get marker_density_x; n ← get nx;
          sx ← lift (stride dx n); assign (upd_slc_x sx);;
          dy ← get marker_density_y; m ← get ny;
          sy ← lift (stride dy m); assign (upd_slc_y sy);;
          match cx, cy with
          | PNone, PNone => _set_default_grid
          | _, PNone => _check_coordinate cx;; _set_grid_from_coordinate cx "both"
          | PNone, _ => _check_coordinate cy;; _set_grid_from_coordinate cy "both"
          | _, _ =>
              _check_coordinate cx;; _check_coordinate cy;;
              _set_grid_from_coordinate cx "x";; _set_grid_from_coordinate cy "y"
          end;;
          _set_marker_size
      | _ => mret tt
      end
  end.

(** The constructor: no object exists when it raises. *)
Definition __init__ (deg fld cx cy : pyobj) : exn + animator :=
  match deg with
  | PNum (Int d) =>
      if d <? 1 then inl ValueError
      else
        match init_body fld cx cy (fresh d) with
        | (inr _, s) => inr s
        | (inl e, _) => inl e
        end
  | _ => inl TypeError
  end.

(** ** Public setters *)

Definition set_grid (c : pyobj) (wh : string) : M unit :=
  if negb (str_in (lower wh) ["x"; "y"; "both"]) then raise ValueError
  else
    _check_coordinate c;;
    if wh ==? "x" then
      lo ← lift (np_min c); assign (upd_x0 (Some lo));;
      hi ← lift (np_max c); assign (upd_x1 (Some hi));;
      fld ← get field;
      match fld with
      | Some _ =>
          a ← get x0; b ← get x1;
          _set_grid_from_coordinate (PSeq [opt_obj a; opt_obj b]) "x"
      | None => mret tt
      end
    else if wh ==? "y" then
      lo ← lift (np_min c); assign (upd_y0 (Some lo));;
      hi ← lift (np_max c); assign (upd_y1 (Some hi));;
      fld ← get field;
      match fld with
      | Some _ =>
          a ← get y0; b ← get y1;
          _set_grid_from_coordinate (PSeq [opt_obj a; opt_obj b]) "y"
      | None => mret tt
      end
    else if wh ==? "both" then
      lo ← lift (np_min c); assign (upd_x0 (Some lo));;
      hi ← lift (np_max c); assign (upd_x1 (Some hi));;
      lo' ← lift (np_min c); assign (upd_y0 (Some lo'));;
      hi' ← lift (np_max c); assign (upd_y1 (Some hi'));;
      fld ← get field;
      match fld with
      | Some _ => _set_grid_from_coordinate c "both"
      | None => mret tt
      end
    else mret tt.

(** [self._set_grid_from_coordinate([self.a0, self.a1], which=...)]. *)
Definition regrid_x : M unit :=
  a ← get x0; b ← get x1; _set_grid_from_coordinate (PSeq [opt_obj a; opt_obj b]) "x".
Definition regrid_y : M unit :=
  a ← get y0; b ← get y1; _set_grid_from_coordinate (PSeq [opt_obj a; opt_obj b]) "y".

Definition is_none {A} (o : option A) : bool :=
  match o with None => true | Some _ => false end.

Definition set_phi (data_ : pyobj) : M unit :=
  _check_phi data_;;
  match data_ with
  | PArray a =>
      assign (upd_field (Some a));;
      assign (upd_nx (Some (nth 2 (shape a) 0)));;
      assign (upd_ny (Some (nth 1 (shape a) 0)));;
      assign (upd_nt (Some (nth 0 (shape a) 0)));;
      dx ← get marker_density_x; n ← get nx;
      sx ← lift (stride dx n); assign (upd_slc_x sx);;
      dy ← get marker_density_y; m ← get ny;
      sy ← lift (stride dy m); assign (upd_slc_y sy);;
      gx ← get x; gy ← get y;
      a0 ← get x0; a1 ← get x1; b0 ← get y0; b1 ← get y1;
      if is_none gx && is_none gy then
        if is_none a0 && is_none a1 && is_none b0 && is_none b1 then
          _set_default_grid;; _set_marker_size
        else if negb (is_none a0) && negb (is_none a1) && is_none b0 && is_none b1 then
          regrid_x
        else if is_none a0 && is_none a1 && negb (is_none b0) && negb (is_none b1) then
          regrid_y
        else if negb (is_none a0) && negb (is_none a1)
                && negb (is_none b0) && negb (is_none b1) then
          regrid_x;; regrid_y;; _set_marker_size
        else mret tt
      else if negb (is_none gx) && is_none gy then
        if negb (is_none b0) && negb (is_none b1) then regrid_y;; _set_marker_size
        else mret tt
      else if is_none gx && negb (is_none gy) then
        if negb (is_none a0) && negb (is_none a1) then regrid_x;; _set_marker_size
        else mret tt
      else
        regrid_x;; regrid_y;; _set_marker_size
  | _ => mret tt
  end.

(** [self.ax1.remove()]: the figure takes the Axes out of its stack, and
    raises [KeyError] for one that is no longer there. *)
Definition remove_ax1 : M unit :=
  a ← get ax1;
  match a with
  | Attached => assign (upd_ax1 Detached)
  | Detached => raise KeyError
  end.

(** [self.ax2.remove()], an attribute lookup on [None] while there is no
    second Axes. *)
Definition remove_ax2 : M unit :=
  a ← get ax2;
  match a with
  | None => raise AttributeError
  | Some Attached => assign (upd_ax2 (Some Detached))
  | Some Detached => raise KeyError
  end.

(** The body of the [try] in [set_which]: the two Axes are removed, a new
    [ax1] is added to the figure and the grouping is reset.  [ax2] keeps the
    removed Axes. *)
Definition collapse_axes : M unit :=
  remove_ax2;;
  remove_ax1;;
  assign (upd_ax1 Attached);;
  assign (upd_grouping "together").

Definition set_which (wh : string) : M unit :=
  if negb (str_in (lower wh) _which_list) then raise ValueError
  else
    try_except collapse_axes (mret tt);;
    w ← get which;
    (if w ==? "pf" then assign (upd_pf_transparency (Float f_1_0)) else mret tt);;
    assign (upd_which (lower wh)).

(** The defaults both [set_grouping] and [set_mode] force. *)
Definition force_together_defaults : M unit :=
  deg ← get p;
  (if deg =? 2 then assign (upd_marker_type "point")
   else assign (upd_marker_type "patch");; set_transparency "patch" (Float f_1_0));;
  assign (upd_pf_transparency (Float f_0_25)).

Definition force_separate_defaults : M unit :=
  assign (upd_marker_type "all");;
  set_transparency "patch" (Float f_0_5);;
  assign (upd_pf_transparency (Float f_1_0)).

(** An argument outside the list is reported with
    [raise ValueError(msg % self._grouping_list)]: the two-place format string
    is applied to a list, not a tuple, so the [%] operator itself raises
    [TypeError]. *)
Definition set_grouping (g : string) : M unit :=
  if negb (str_in (lower g) _grouping_list) then raise TypeError
  else
    cf ← attr complex_field;
    (if negb cf then
       w ← get which;
       if w ==? "both" then
         gr ← get grouping;
         (if negb (gr ==? lower g) && (lower g ==? "separate") then
            remove_ax1;;
            assign (upd_ax1 Attached);;
            assign (upd_ax2 (Some Attached))
          else if negb (gr ==? lower g) && (lower g ==? "together") then
            remove_ax1;;
            remove_ax2;;
            assign (upd_ax1 Attached)
          else mret tt);;
         md ← get mode;
         if (lower g ==? "together") && (num_eqb md (Int 1) || num_eqb md (Int 2)) then
           force_together_defaults
         else if lower g ==? "separate" then
           force_separate_defaults
         else mret tt
       else mret tt
     else mret tt);;
    assign (upd_grouping (lower g)).

(** As in [set_grouping], the error branch formats its message with a list
    and so raises [TypeError]. *)
Definition set_mode (v : pyobj) : M unit :=
  match in_mode_list v with
  | None => raise TypeError
  | Some md =>
      assign (upd_mode md);;
      w ← get which;
      if w ==? "both" then
        gr ← get grouping; md' ← get mode;
        if (gr ==? "together") && (num_eqb md' (Int 1) || num_eqb md' (Int 2)) then
          force_together_defaults
        else if gr ==? "separate" then
          force_separate_defaults
        else mret tt
      else mret tt
  end.

(** [float(density)] inside [try], then the range check and the clamp. *)
Definition coerce_density (v : pyobj) : exn + number :=
  match py_float v with
  | inl _ => inl TypeError
  | inr f =>
      if num_lt (Float f) (Int 0) then inl ValueError
      else if num_gt (Float f) (Int 1) then inr (Int 1)
      else inr (Float f)
  end.

Definition density_x (d : number) : M unit :=
  assign (upd_marker_density_x d);;
  dx ← get marker_density_x; n ← get nx;
  sx ← lift (stride dx n); assign (upd_slc_x sx).

Definition density_y (d : number) : M unit :=
  assign (upd_marker_density_y d);;
  dy ← get marker_density_y; m ← get ny;
  sy ← lift (stride dy m); assign (upd_slc_y sy).

Definition set_marker_density (v : pyobj) (direction : string) : M unit :=
  if negb (str_in direction ["x"; "y"; "both"]) then raise ValueError
  else
    d ← lift (coerce_density v);
    gx ← get x; gy ← get y;
    if direction ==? "x" then
      if negb (is_none gx) then
        density_x d;;
        if negb (is_none gx) && negb (is_none gy) then _set_marker_size else mret tt
      else mret tt
    else if direction ==? "y" then
      if negb (is_none gy) then
        density_y d;;
        if negb (is_none gx) && negb (is_none gy) then _set_marker_size else mret tt
      else mret tt
    else if direction ==? "both" then
      if negb (is_none gx) && is_none gy then density_x d
      else if is_none gx && negb (is_none gy) then density_y d
      else if negb (is_none gx) && negb (is_none gy) then
        assign (upd_marker_density_x d);;
        assign (upd_marker_density_y d);;
        dx ← get marker_density_x; n ← get nx;
        sx ← lift (stride dx n); assign (upd_slc_x sx);;
        dy ← get marker_density_y; m ← get ny;
        sy ← lift (stride dy m); assign (upd_slc_y sy);;
        _set_marker_size
      else mret tt
    else mret tt.

(** The three line widths [reset_marker_settings] restores. *)
Definition reset_linewidths : M unit :=
  set_linewidth "patch" (Int 0);;
  set_linewidth "point" (Float f_0_2);;
  set_linewidth "tick" (Float f_0_5).

(** The marker type, patch transparency and colours of the solid-colour
    configurations. *)
Definition solid_defaults : M unit :=
  assign (upd_marker_type "all");;
  set_transparency "patch" (Float f_0_5);;
  set_color "patch" "k";;
  set_color "point" "k";;
  set_color "tick" "r".

Definition reset_marker_settings : M unit :=
  _set_marker_size;;
  reset_linewidths;;
  w ← get which; gr ← get grouping; md ← get mode;
  if (w ==? "op") || ((w ==? "both") && (gr ==? "separate"))
     || ((w ==? "both") && (gr ==? "together") && num_eqb md (Int 0)) then
    solid_defaults
  else if (w ==? "both") && (num_eqb md (Int 1) || num_eqb md (Int 2)) then
    assign (upd_marker_type "patch")
  else mret tt.

Definition set_marker_type (t : string) : M unit :=
  if negb (str_in (lower t) _marker_types) then raise ValueError
  else assign (upd_marker_type (lower t)).

Definition sub_types : list string := ["patch"; "point"; "tick"].

(** The key is checked in lower case and then used as it was given. *)
Definition set_marker_color (color wh : string) : M unit :=
  if negb (str_in (lower wh) sub_types) then raise ValueError
  else set_color wh color.

(** [(isinstance(v, int) or isinstance(v, float)) and v < 0]. *)
Definition negative_number (v : pyobj) : bool :=
  match v with
  | PNum n => num_lt n (Int 0)
  | _ => false
  end.

Definition coerce_float (v : pyobj) : exn + spec_float :=
  match py_float v with
  | inl _ => inl TypeError
  | inr f => inr f
  end.

Definition set_marker_size (v : pyobj) : M unit :=
  if negative_number v then raise ValueError
  else
    f ← lift (coerce_float v);
    assign (upd_marker_size (Float f)).

Definition set_marker_linewidth (v : pyobj) (wh : string) : M unit :=
  if negb (str_in (lower wh) sub_types) then raise ValueError
  else if negative_number v then raise ValueError
  else
    f ← lift (coerce_float v);
    set_linewidth wh (Float f).

(** [alpha > 1] stores the integer 1, [alpha < 0] the integer 0. *)
Definition clamp_alpha (f : spec_float) : number :=
  if num_gt (Float f) (Int 1) then Int 1
  else if num_lt (Float f) (Int 0) then Int 0
  else Float f.

Definition set_marker_transparency (v : pyobj) (wh : string) : M unit :=
  if negb (str_in (lower wh) sub_types) then raise ValueError
  else
    f ← lift (coerce_float v);
    set_transparency wh (clamp_alpha f).

Definition set_axes_facecolor (v : pyobj) : M unit :=
  match v with
  | PStr c _ => assign (upd_ax_fc c)
  | _ => raise TypeError
  end.

Definition set_colormap (c : string) : M unit := assign (upd_colormap c).

Definition set_pf_transparency (v : pyobj) : M unit :=
  f ← lift (coerce_float v);
  assign (upd_pf_transparency (clamp_alpha f)).

(** ** The colour legend of a complex field *)

(** ['%d' % f] for a numpy float. *)
Definition fmt_d (f : spec_float) : exn + string :=
  z ← float_trunc f; mret (pretty z).

(** The label of tick [i] in the loop [for i in range(9)]. *)
Definition tick_label (deg i : Z) : exn + string :=
  let n := Z.abs (8 - 2 * i) in
  let d := 4 * deg in
  let nr := fdiv (float_of_Z n) (float_of_Z (Z.gcd n d)) in
  let dr := fdiv (float_of_Z d) (float_of_Z (Z.gcd n d)) in
  let one := Int 1 in
  if i <? 4 then
    if num_eqb (Float nr) one && num_eqb (Float dr) one then mret "$-\pi$"
    else if num_eqb (Float nr) one then
      ds ← fmt_d dr; mret ("$-\frac{\pi}{" ++ ds ++ "}$")
    else if num_eqb (Float dr) one then
      ns ← fmt_d nr; mret ("$-" ++ ns ++ "\pi$")
    else
      ns ← fmt_d nr; ds ← fmt_d dr; mret ("$-\frac{" ++ ns ++ "\pi}{" ++ ds ++ "}$")
  else if i =? 4 then mret "$0$"
  else
    if num_eqb (Float nr) one && num_eqb (Float dr) one then mret "$\pi$"
    else if num_eqb (Float nr) one then
      ds ← fmt_d dr; mret ("$\frac{\pi}{" ++ ds ++ "}$")
    else if num_eqb (Float dr) one then
      ns ← fmt_d nr; mret ("$" ++ ns ++ "\pi$")
    else
      ns ← fmt_d nr; ds ← fmt_d dr; mret ("$\frac{" ++ ns ++ "\pi}{" ++ ds ++ "}$").

Fixpoint collect {A} (l : list (exn + A)) : exn + list A :=
  match l with
  | [] => inr []
  | inl e :: _ => inl e
  | inr a :: t => match collect t with inl e => inl e | inr r => inr (a :: r) end
  end.

Definition tick_labels (deg : Z) : exn + list string :=
  collect (map (fun i => tick_label deg (Z.of_nat i)) (seq 0 9)).

(** [ticks=np.linspace(np.min(self.thetas), np.max(self.thetas), 9)]. *)
Definition colorbar_ticks (lo hi : number) : list spec_float := linspace lo hi 9.

(** ** Drawing *)

(** [self.field[i, :, :]]: the frame at index [i], counted from the end when
    [i] is negative. *)
Definition frame (i : Z) : M Z :=
  fld ← operand field;
  let n := nth 0 (shape fld) 0 in
  if (- n <=? i) && (i <? n) then mret (if i <? 0 then i + n else i)
  else raise IndexError.

(** [np.min] and [np.max] of the field or of one of its frames. *)
Definition field_extrema : M unit :=
  fld ← operand field;
  if existsb (Z.eqb 0) (shape fld) then raise ValueError else mret tt.

(** A slice [[::self._slc_y, ::self._slc_x]]. *)
Definition strides : M unit :=
  sx ← get _slc_x; sy ← get _slc_y;
  if (sx =? 0) || (sy =? 0) then raise ValueError else mret tt.

Definition sampled (i : Z) : M unit :=
  _ ← frame i; strides.

Definition is_finite (f : spec_float) : bool :=
  match f with
  | S754_zero _ | S754_finite _ _ _ => true
  | _ => false
  end.

Definition all_finite (g : grid) : bool := forallb (forallb is_finite) g.

(** [g.shape == (h, w)]. *)
Definition grid_fits (g : grid) (h w : Z) : bool :=
  (Z.of_nat (length g) =? h) && forallb (fun r => Z.of_nat (length r) =? w) g.

(** The number of entries a slice [[::step]] keeps of [n]. *)
Definition kept (n step : Z) : Z := (n + Z.abs step - 1) / Z.abs step.

(** The size of [g[::sy, ::sx]]. *)
Definition sample_size (g : grid) (sy sx : Z) : Z :=
  kept (Z.of_nat (length g)) sy * kept (Z.of_nat (length (hd [] g))) sx.

(** [self.ax1.pcolormesh(self.x, self.y, C, shading='nearest', ...)], where
    [C] is a frame of the field or, with [rgba] set, the colours computed from
    it.  Matplotlib reads the shape of the coordinate arrays, which a missing
    one does not have; it raises [ValueError] when a coordinate is not finite,
    and [TypeError] when [x] and [y] do not have the shape of [C] or when [C]
    holds complex numbers. *)
Definition pcolormesh (rgba : bool) : M unit :=
  gx ← get x; gy ← get y; fld ← operand field;
  match gx, gy with
  | Some u, Some v =>
      let h := nth 1 (shape fld) 0 in
      let w := nth 2 (shape fld) 0 in
      if negb (all_finite u && all_finite v) then raise ValueError
      else if negb (grid_fits u h w && grid_fits v h w) then raise TypeError
      else if negb rgba && is_complex (dtype_of fld) then raise TypeError
      else assign (upd_cont true)
  | _, _ => raise IndexError
  end.

(** [self.fig.colorbar(..., ax=self.ax1, ...)]: the colour bar is placed in the
    figure of [ax1], and an Axes that has been removed has none. *)
Definition colorbar : M unit :=
  a ← get ax1;
  match a with
  | Attached => assign (upd_CB true)
  | Detached => raise AttributeError
  end.

(** The positions [self.x[::sy, ::sx]] and [self.y[::sy, ::sx]] of the glyphs,
    as they are evaluated. *)
Definition grid_samples : M unit :=
  _ ← operand x; strides;; _ ← operand y; mret tt.

(** [scatter] and [quiver] flatten their array arguments and raise
    [ValueError] unless they have the same number of entries: the two samples
    of the grid and, with [coloured] set, the sample of the frame that gives
    the glyphs their direction or colour. *)
Definition glyph_call (coloured : bool) : M unit :=
  gx ← operand x; gy ← operand y;
  sx ← get _slc_x; sy ← get _slc_y;
  if negb (sample_size gx sy sx =? sample_size gy sy sx) then raise ValueError
  else if (coloured : bool) then
    fld ← operand field;
    if sample_size gx sy sx
       =? kept (nth 1 (shape fld) 0) sy * kept (nth 2 (shape fld) 0) sx
    then mret tt else raise ValueError
  else mret tt.

(** [set_xlim([self.x0, self.x1])] and [set_ylim([self.y0, self.y1])]: [None]
    leaves a limit as it is, and a limit that is not finite is refused. *)
Definition limit_ok (v : option number) : bool :=
  match v with
  | Some (Float f) => is_finite f
  | _ => true
  end.

Definition set_limits : M unit :=
  a ← get x0; b ← get x1; c ← get y0; d ← get y1;
  if forallb limit_ok [a; b; c; d] then mret tt else raise ValueError.

Definition new_mesh : M unit :=
  _ ← frame 0; field_extrema;; pcolormesh false.

Definition new_arrow : M unit :=
  grid_samples;; sampled 0;; glyph_call true;; assign (upd_arrow true).

Definition _set_marker : M unit :=
  t ← get marker_type;
  if t ==? "patch" then scene point;; scene tick
  else if t ==? "point" then scene patch;; scene tick
  else if t ==? "tick" then scene patch;; scene point
  else if t ==? "patch & point" then scene tick
  else if t ==? "patch & tick" then scene point
  else if t ==? "point & tick" then scene patch
  else mret tt.

Definition new_markers : M unit :=
  grid_samples;; glyph_call false;;
  assign (upd_patch true);; assign (upd_point true);; assign (upd_tick true);;
  _set_marker.

(** The keyword dictionaries of modes 1 and 2. *)
Definition colour_kwargs : M unit :=
  deg ← get p;
  (if deg =? 1 then new_arrow
   else if deg =? 2 then sampled 0
   else mret tt);;
  sampled 0;; field_extrema.

Definition _initialize_plot : M unit :=
  assign (upd_SM true);;
  cf ← attr complex_field;
  deg ← get p; w ← get which; gr ← get grouping; md ← get mode;
  if (cf : bool) then
    field_extrema;;
    _ ← frame 0;
    pcolormesh true;; colorbar;;
    _ ← lift (tick_labels deg); mret tt
  else
    (if deg =? 1 then _ ← operand field; mret tt else mret tt);;
    (if (w ==? "both") && (gr ==? "separate") then
       new_mesh;;
       a2 ← get ax2;
       (if is_none a2 then raise AttributeError else mret tt);;
       (if deg =? 1 then new_arrow else new_markers);;
       set_limits
     else if w ==? "pf" then new_mesh
     else if w ==? "op" then
       (if deg =? 1 then new_arrow else new_markers)
     else if w ==? "both" then
       (if num_eqb md (Int 0) then
          new_mesh;; (if deg =? 1 then new_arrow else mret tt)
        else if num_eqb md (Int 1) then colour_kwargs
        else if num_eqb md (Int 2) then new_mesh;; colour_kwargs
        else mret tt);;
       (if 1 <? deg then
          grid_samples;;
          (if num_eqb md (Int 0) || num_eqb md (Int 1) || num_eqb md (Int 2)
           then mret tt else raise UnboundLocalError);;
          glyph_call (negb (num_eqb md (Int 0)));;
          assign (upd_patch true);; assign (upd_point true);; assign (upd_tick true);;
          _set_marker
        else mret tt)
     else mret tt);;
    set_limits;;
    (if negb (w ==? "op") then
       if (deg =? 1) && (gr ==? "together") && num_eqb md (Int 1) then
         field_extrema;; colorbar
       else
         scene cont;; field_extrema;; colorbar
     else mret tt).

Definition _update_markers : M unit :=
  t ← get marker_type;
  if t ==? "patch" then scene patch
  else if t ==? "point" then scene point
  else if t ==? "tick" then scene tick
  else if t ==? "patch & point" then scene patch;; scene point
  else if t ==? "patch & tick" then scene patch;; scene tick
  else if t ==? "point & tick" then scene point;; scene tick
  else if t ==? "all" then scene patch;; scene point;; scene tick
  else mret tt.

(** [self.CB.remove(); self.cont.remove()] and the new mesh of frame [i]. *)
Definition redraw_mesh (i : Z) : M unit :=
  scene CB;; scene cont;;
  _ ← frame i; field_extrema;;
  pcolormesh false;; colorbar.

(** [set_array] on the colour-mapped glyph of modes 1 and 2. *)
Definition recolour (i : Z) : M unit :=
  deg ← get p;
  (if deg =? 1 then scene arrow
   else if deg =? 2 then scene point
   else scene patch);;
  sampled i.

(** The two nested [range] loops over the sites of frame [i]. *)
Definition marker_loop (i : Z) : M unit :=
  _ ← frame i;
  rows ← operand ny; sx ← get _slc_x; sy ← get _slc_y;
  if sy =? 0 then raise ValueError
  else if (0 <? rows) && (0 <? sy) && (sx =? 0) then raise ValueError
  else mret tt.

Definition _draw_frame (i : Z) : M unit :=
  cf ← attr complex_field;
  deg ← get p; w ← get which; gr ← get grouping; md ← get mode;
  (if (cf : bool) then
     scene CB;; scene cont;;
     _ ← frame i;
     pcolormesh true;; colorbar;;
     _ ← lift (tick_labels deg); mret tt
   else if w ==? "pf" then redraw_mesh i
   else
     (if deg =? 1 then scene arrow;; strides;; _ ← frame i; mret tt
      else if 1 <? deg then marker_loop i;; _update_markers
      else mret tt);;
     if (w ==? "both") && (gr ==? "together") then
       if num_eqb md (Int 0) then redraw_mesh i
       else if num_eqb md (Int 1) then recolour i
       else if num_eqb md (Int 2) then redraw_mesh i;; recolour i
       else mret tt
     else if (w ==? "both") && (gr ==? "separate") then redraw_mesh i
     else mret tt);;
  k ← frame i;
  assign (upd_drawn (Some k)).

Definition preview (frm : pyobj) : M unit :=
  fld ← get field; gx ← get x; gy ← get y;
  if is_none fld then raise Exception
  else if is_none gx || is_none gy then raise Exception
  else
    _initialize_plot;;
    match frm with
    | PNone => _draw_frame 0
    | PNum (Int k) =>
        n ← operand nt;
        _draw_frame (if k >=? n then n - 1 else k)
    | _ => raise TypeError
    end.

(** ** Calls on the public surface *)

Inductive call :=
| Set_grid (c : pyobj) (wh : string)
| Set_phi (data_ : pyobj)
| Set_which (wh : string)
| Set_grouping (g : string)
| Set_mode (v : pyobj)
| Set_marker_density (v : pyobj) (direction : string)
| Reset_marker_settings
| Set_marker_type (t : string)
| Set_marker_color (color wh : string)
| Set_marker_size (v : pyobj)
| Set_marker_linewidth (v : pyobj) (wh : string)
| Set_marker_transparency (v : pyobj) (wh : string)
| Set_axes_facecolor (v : pyobj)
| Set_colormap (c : string)
| Set_pf_transparency (v : pyobj)
| Preview (frm : pyobj).

Definition run (c : call) : M unit :=
  match c with
  | Set_grid c wh => set_grid c wh
  | Set_phi d => set_phi d
  | Set_which wh => set_which wh
  | Set_grouping g => set_grouping g
  | Set_mode v => set_mode v
  | Set_marker_density v d => set_marker_density v d
  | Reset_marker_settings => reset_marker_settings
  | Set_marker_type t => set_marker_type t
  | Set_marker_color c wh => set_marker_color c wh
  | Set_marker_size v => set_marker_size v
  | Set_marker_linewidth v wh => set_marker_linewidth v wh
  | Set_marker_transparency v wh => set_marker_transparency v wh
  | Set_axes_facecolor v => set_axes_facecolor v
  | Set_colormap c => set_colormap c
  | Set_pf_transparency v => set_pf_transparency v
  | Preview f => preview f
  end.

Definition is_set_phi (c : call) : bool :=
  match c with Set_phi _ => true | _ => false end.

(** The objects a program can hold when it built the animator without a field
    and has not called [set_phi] since. *)
Inductive never_given_a_field : animator -> Prop :=
| built (deg cx cy : pyobj) (s : animator) :
    __init__ deg PNone cx cy = inr s -> never_given_a_field s
| called (c : call) (s : animator) :
    never_given_a_field s -> is_set_phi c = false ->
    never_given_a_field (state_of (run c s)).

(** ** Notions used to state the properties *)

(** The glyph count of the size rule as the specification words it: the floor
    of density times the larger extent, with the density of the axis that
    attains it, and never below 10. *)
Definition num_floor (a : number) : exn + Z :=
  match a with
  | Int z => inr z
  | Float f => float_floor f
  end.

Definition glyph_count (s : animator) : exn + Z :=
  match nx s, ny s with
  | Some a, Some b =>
      let d := if b <=? a then marker_density_x s else marker_density_y s in
      prod ← num_mul d (Int (Z.max a b));
      n ← num_floor prod;
      mret (Z.max 10 n)
  | _, _ => inl TypeError
  end.

(** Two stored numbers are the same to Python when they are identical or
    compare equal with [==], as the integer 1 and the float 1.0 do. *)
Definition same_number (a b : number) : Prop :=
  a = b \/ num_eqb a b = true.

(** Two objects agree when their densities are the same numbers and every
    other attribute is identical. *)
Definition without_density (s : animator) : animator :=
  upd_marker_density_x (Int 0) (upd_marker_density_y (Int 0) s).

Definition same_state (s t : animator) : Prop :=
  same_number (marker_density_x s) (marker_density_x t)
  /\ same_number (marker_density_y s) (marker_density_y t)
  /\ without_density s = without_density t.

Definition same_outcome (r r' : (exn + unit) * animator) : Prop :=
  fst r = fst r' /\ same_state (snd r) (snd r').

(** A grid is fully defined when both coordinate arrays exist; [a] and [b] are
    its extents.  The extents of arrays held in memory are far below [2 ^ 53],
    the range in which every integer is a binary64 value. *)
Definition grid_defined (s : animator) (a b : Z) : Prop :=
  x s <> None /\ y s <> None
  /\ nx s = Some a /\ ny s = Some b
  /\ 0 <= a < 2 ^ 53 /\ 0 <= b < 2 ^ 53.

(** The stored density is the integer 1 in one run and the float 1.0 in the
    other, or the same number in both. *)
Definition unit_pair (d1 d2 : number) : Prop :=
  d1 = d2 \/ (d1 = Int 1 /\ d2 = Float f_1_0).

(** What the cascade of [_set_marker_size] can do to the object: assign the
    size alone, or the two line widths and the size. *)
Inductive size_action : M unit -> Prop :=
| size_only (sz : Z) : size_action (assign (upd_marker_size (Int sz)))
| widths_and_size (lw : spec_float) (sz : Z) : size_action (thin_markers lw sz).

(** A computation keeps [complex_field] when the attribute is the same
    before and after it, whether it returns or raises. *)
Definition keeps {A} (m : M A) : Prop :=
  forall s, complex_field (snd (m s)) = complex_field s.

(** The same for any attribute [f]. *)
Definition untouched {A B} (f : animator -> B) (m : M A) : Prop :=
  forall s, f (snd (m s)) = f s.

(** ** Concrete inputs *)

Definition zeros (sh : list Z) : ndarray :=
  {| shape := sh; dtype_of := Dfloat;
     data := repeat (Float f_0_0) (Z.to_nat (fold_right Z.mul 1 sh)) |}.

(** [PAticAnimator(3, field=np.zeros((5, 20, 20)))]. *)
Definition demo : exn + animator :=
  __init__ (PNum (Int 3)) (PArray (zeros [5; 20; 20])) PNone PNone.

(** The object left by a sequence of calls, raised exceptions included. *)
Definition after (calls : list call) (s : animator) : animator :=
  fold_left (fun st c => state_of (run c st)) calls s.

Definition from (r : exn + animator) (d : animator) : animator :=
  match r with inr s => s | inl _ => d end.

Definition demo_state : animator := from demo (fresh 3).

(** A 10 by 10 coordinate array whose rows are the squares 0, 1, 4, ..., 81:
    point values that are not evenly spaced. *)
Definition squares_row : list number :=
  map (fun i => Int (Z.of_nat i * Z.of_nat i)) (seq 0 10).

Definition squares_10_10 : ndarray :=
  {| shape := [10; 10]; dtype_of := Dint;
     data := concat (repeat squares_row 10) |}.

(** An array of the same shape with evenly spaced rows 0, 9, 18, ..., 81: the
    same minimum and maximum as the squares. *)
Definition even_row : list number :=
  map (fun i => Int (9 * Z.of_nat i)) (seq 0 10).

Definition even_10_10 : ndarray :=
  {| shape := [10; 10]; dtype_of := Dint;
     data := concat (repeat even_row 10) |}.

(** [PAticAnimator(3, field=np.zeros((1, 10, 10)))]. *)
Definition small_state : animator :=
  from (__init__ (PNum (Int 3)) (PArray (zeros [1; 10; 10])) PNone PNone) (fresh 3).

(** [PAticAnimator(3, field=np.zeros((1, 100, 100)))]: ten markers along each
    axis at the default density. *)
Definition wide_state : animator :=
  from (__init__ (PNum (Int 3)) (PArray (zeros [1; 100; 100])) PNone PNone) (fresh 3).


(** The animator of the failing preview: both layers in one axes, mode 1. *)
Definition mode_1_state : animator :=
  after [Set_which "both"; Set_mode (PNum (Int 1))] demo_state.

(** The setters whose only [raise] statements come before their first
    assignment. *)
Definition validates_first (c : call) : bool :=
  match c with
  | Set_which _ | Set_mode _ | Set_marker_type _ | Set_marker_color _ _
  | Set_marker_size _ | Set_marker_linewidth _ _ | Set_marker_transparency _ _
  | Set_axes_facecolor _ | Set_colormap _ | Set_pf_transparency _ => true
  | _ => false
  end.

(** * Properties *)

(** ** binary64: small integers are exact *)

Lemma digits2_pos_bounds (q : positive) :
  2 ^ (Zpos (digits2_pos q) - 1) <= Zpos q < 2 ^ Zpos (digits2_pos q).
Proof.
  induction q as [q IH | q IH | ]; cbn [digits2_pos].
  - rewrite Pos2Z.inj_succ.
    replace (Z.succ (Z.pos (digits2_pos q)) - 1)
      with (Z.succ (Z.pos (digits2_pos q) - 1)) by lia.
    rewrite !Z.pow_succ_r by lia. lia.
  - rewrite Pos2Z.inj_succ.
    replace (Z.succ (Z.pos (digits2_pos q)) - 1)
      with (Z.succ (Z.pos (digits2_pos q) - 1)) by lia.
    rewrite !Z.pow_succ_r by lia. lia.
  - cbn. lia.
Qed.

Lemma iter_xO_digits (q k : positive) :
  digits2_pos (Pos.iter xO q k) = (digits2_pos q + k)%positive.
Proof.
  induction k as [|k IH] using Pos.peano_ind.
  - cbn. lia.
  - rewrite Pos.iter_succ. cbn [digits2_pos]. rewrite IH. lia.
Qed.

Lemma iter_xO_value (q k : positive) :
  Zpos (Pos.iter xO q k) = Zpos q * 2 ^ Zpos k.
Proof.
  induction k as [|k IH] using Pos.peano_ind.
  - cbn. lia.
  - rewrite Pos.iter_succ, Pos2Z.inj_succ, Z.pow_succ_r by lia.
    rewrite Pos2Z.inj_xO, IH. lia.
Qed.

(** A 53-bit mantissa with an exponent in range is already rounded. *)
Lemma binary_round_aux_canonical (sx : bool) (m : positive) (e : Z) :
  digits2_pos m = 53%positive -> -1074 <= e <= 971 ->
  binary_round_aux 53 1024 sx (Zpos m) e loc_Exact = S754_finite sx m e.
Proof.
  intros Hd He.
  unfold binary_round_aux, shr_fexp, fexp, emin.
  cbn [Zdigits2 shr_record_of_loc].
  rewrite Hd.
  replace (Z.max (53 + e - 53) (3 - 1024 - 53) - e) with 0 by lia.
  cbn [shr shr_m loc_of_shr_record shr_r shr_s round_nearest_even Zdigits2
       shr_record_of_loc].
  rewrite Hd.
  replace (Z.max (53 + e - 53) (3 - 1024 - 53) - e) with 0 by lia.
  cbn [shr shr_m].
  replace (e <=? 1024 - 53) with true by (symmetry; apply Z.leb_le; lia).
  reflexivity.
Qed.

Lemma float_of_Z_pos (q : positive) :
  Zpos q < 2 ^ 53 ->
  exists m e, float_of_Z (Zpos q) = S754_finite false m e
    /\ digits2_pos m = 53%positive /\ -52 <= e <= 0
    /\ Z.shiftl (Zpos m) e = Zpos q.
Proof.
  intros Hq.
  pose proof (digits2_pos_bounds q) as [Hlo Hhi].
  assert (Hd : Zpos (digits2_pos q) <= 53).
  { destruct (Z_le_gt_dec (Zpos (digits2_pos q)) 53) as [|Hgt]; [assumption|].
    exfalso.
    assert (2 ^ 53 <= 2 ^ (Zpos (digits2_pos q) - 1)) by (apply Z.pow_le_mono_r; lia).
    lia. }
  unfold float_of_Z, binary_normalize, binary_round, shl_align, fexp, emin.
  replace (Z.max (Z.pos (digits2_pos q) + 0 - 53) (3 - 1024 - 53) - 0)
    with (Zpos (digits2_pos q) - 53) by lia.
  destruct (Zpos (digits2_pos q) - 53) as [|k|k] eqn:Hk; try lia.
  - exists q, 0. rewrite binary_round_aux_canonical by lia.
    repeat split; try lia.
  - exists (Pos.iter xO q k),
      (Z.max (Zpos (digits2_pos q) + 0 - 53) (3 - 1024 - 53)).
    assert (Hdk : digits2_pos (Pos.iter xO q k) = 53%positive)
      by (rewrite iter_xO_digits; lia).
    rewrite binary_round_aux_canonical by lia.
    repeat split; try lia; try assumption.
    replace (Z.max (Zpos (digits2_pos q) + 0 - 53) (3 - 1024 - 53))
      with (- Zpos k) by lia.
    rewrite Z.shiftl_opp_r, Z.shiftr_div_pow2 by lia.
    rewrite iter_xO_value. apply Z.div_mul. lia.
Qed.

Lemma shr_1_52 (m : positive) :
  SpecFloat.iter_pos shr_1 52
    {| shr_m := Zpos (4503599627370496 * m); shr_r := false; shr_s := false |}
  = {| shr_m := Zpos m; shr_r := false; shr_s := false |}.
Proof. reflexivity. Qed.

(** Multiplying a normal number by 1.0 is exact. *)
Lemma fmul_one_canonical (m : positive) (e : Z) :
  digits2_pos m = 53%positive -> -52 <= e <= 0 ->
  fmul f_1_0 (S754_finite false m e) = S754_finite false m e.
Proof.
  intros Hd He.
  unfold fmul, f_1_0, SFmul. cbn [xorb].
  unfold binary_round_aux, shr_fexp, fexp, emin.
  cbn [Zdigits2 shr_record_of_loc].
  change (digits2_pos (4503599627370496 * m))
    with (digits2_pos (Pos.iter xO m 52)).
  rewrite iter_xO_digits, Hd.
  change (Z.pos (53 + 52)) with 105.
  replace (Z.max (105 + (-52 + e) - 53) (3 - 1024 - 53) - (-52 + e)) with 52 by lia.
  cbn [shr]. rewrite shr_1_52.
  cbn [shr_m loc_of_shr_record shr_r shr_s round_nearest_even Zdigits2
       shr_record_of_loc].
  rewrite Hd.
  replace (Z.max (53 + (-52 + e + 52) - 53) (3 - 1024 - 53) - (-52 + e + 52))
    with 0 by lia.
  cbn [shr shr_m].
  replace (-52 + e + 52 <=? 1024 - 53) with true by (symmetry; apply Z.leb_le; lia).
  f_equal. lia.
Qed.

(** [int(1.0 * n) = n] for every extent [n] below [2 ^ 53]. *)
Lemma int_of_unit_product (n : Z) :
  0 <= n < 2 ^ 53 ->
  (prod ← num_mul (Float f_1_0) (Int n); py_int prod) = inr n.
Proof.
  intros [H0 Hn]. destruct n as [|q|q]; try lia.
  - reflexivity.
  - destruct (float_of_Z_pos q Hn) as (m & e & Hf & Hd & He & Hv).
    unfold num_mul, int_to_float. rewrite Hf.
    cbn [mbind err_bind py_int].
    rewrite fmul_one_canonical by assumption.
    cbn [float_trunc cond_Zopp]. now rewrite Hv.
Qed.

Lemma int_of_int_product (n : Z) :
  (prod ← num_mul (Int 1) (Int n); py_int prod) = inr n.
Proof. cbn. destruct n; reflexivity. Qed.

(** Truncation and floor differ only below zero. *)
Lemma floor_trunc (f : spec_float) :
  match float_trunc f, float_floor f with
  | inr t, inr fl => fl = t \/ (fl < 0 /\ t <= 0)
  | inl e, inl e' => e = e'
  | _, _ => False
  end.
Proof.
  destruct f as [s|s| |s m e]; cbn; auto.
  destruct s; cbn [cond_Zopp]; [right|left; reflexivity].
  pose proof (Z.shiftl_nonneg (Zpos m) e) as [_ Hp].
  pose proof (Z.shiftl_nonneg (Z.neg m) e) as [Hn _].
  change (- Zpos m) with (Z.neg m).
  split; [|lia].
  destruct (Z_lt_ge_dec (Z.shiftl (Z.neg m) e) 0); [assumption|].
  assert (0 <= Z.neg m) by (apply Hn; lia). lia.
Qed.

(** ** Running a method on an explicit object *)

Ltac exec :=
  cbv [mbind mret M_bind M_ret err_bind err_ret get assign raise lift attr scene
       operand try_except state_of returned raised fst snd];
  cbn.

(** ** Which methods create [complex_field] *)

Section ComplexFieldFrame.

Lemma keeps_ret {A} (a : A) : keeps (mret a).
Proof. intros s. reflexivity. Qed.

Lemma keeps_raise {A} (e : exn) : keeps (@raise A e).
Proof. intros s. reflexivity. Qed.

Lemma keeps_lift {A} (r : exn + A) : keeps (lift r).
Proof. intros s. reflexivity. Qed.

Lemma keeps_get {A} (f : animator -> A) : keeps (get f).
Proof. intros s. reflexivity. Qed.

Lemma keeps_attr {A} (f : animator -> option A) : keeps (attr f).
Proof. intros s. unfold attr. destruct (f s); reflexivity. Qed.

Lemma keeps_operand {A} (f : animator -> option A) : keeps (operand f).
Proof. intros s. unfold operand. destruct (f s); reflexivity. Qed.

Lemma keeps_scene (f : animator -> bool) : keeps (scene f).
Proof. intros s. unfold scene. destruct (f s); reflexivity. Qed.

Lemma keeps_assign (u : animator -> animator) :
  (forall s, complex_field (u s) = complex_field s) -> keeps (assign u).
Proof. intros H s. apply H. Qed.

Lemma keeps_bind {A B} (m : M A) (k : A -> M B) :
  keeps m -> (forall a, keeps (k a)) -> keeps (m ≫= k).
Proof.
  intros Hm Hk s. unfold mbind, M_bind.
  specialize (Hm s). destruct (m s) as [[e|a] s']; cbn in *.
  - assumption.
  - rewrite Hk. assumption.
Qed.

Lemma keeps_try {A} (body handler : M A) :
  keeps body -> keeps handler -> keeps (try_except body handler).
Proof.
  intros Hb Hh s. unfold try_except.
  specialize (Hb s). destruct (body s) as [[e|a] s']; cbn in *.
  - rewrite Hh. assumption.
  - assumption.
Qed.

End ComplexFieldFrame.

Create HintDb keeps discriminated.
#[local] Hint Resolve keeps_ret keeps_raise keeps_lift keeps_get keeps_attr
  keeps_operand keeps_scene : keeps.

Ltac keeps_step :=
  first
    [ solve [auto 1 with keeps nocore]
    | apply keeps_assign; intros []; reflexivity
    | apply keeps_try
    | apply keeps_bind; [|intros ?]
    | match goal with
      | |- keeps (if ?b then _ else _) => destruct b
      | |- keeps (match ?v with _ => _ end) => destruct v
      end ].

Ltac keeps_all := repeat keeps_step.

Lemma keeps_set_linewidth k v : keeps (set_linewidth k v).
Proof. unfold set_linewidth. keeps_all. Qed.
Lemma keeps_set_transparency k v : keeps (set_transparency k v).
Proof. unfold set_transparency. keeps_all. Qed.
Lemma keeps_set_color k v : keeps (set_color k v).
Proof. unfold set_color. keeps_all. Qed.
#[local] Hint Resolve keeps_set_linewidth keeps_set_transparency keeps_set_color : keeps.

Lemma keeps_check_coordinate c : keeps (_check_coordinate c).
Proof. unfold _check_coordinate. keeps_all. Qed.
#[local] Hint Resolve keeps_check_coordinate : keeps.

Lemma keeps_set_grid_from_coordinate c wh : keeps (_set_grid_from_coordinate c wh).
Proof. unfold _set_grid_from_coordinate. keeps_all. Qed.
#[local] Hint Resolve keeps_set_grid_from_coordinate : keeps.

Lemma keeps_thin_markers lw size : keeps (thin_markers lw size).
Proof. unfold thin_markers. keeps_all. Qed.
#[local] Hint Resolve keeps_thin_markers : keeps.

Lemma keeps_marker_count : keeps marker_count.
Proof. unfold marker_count. keeps_all. Qed.
Lemma keeps_size_by_count N deg : keeps (size_by_count N deg).
Proof. unfold size_by_count. keeps_all. Qed.
#[local] Hint Resolve keeps_marker_count keeps_size_by_count : keeps.

Lemma keeps_set_marker_size_rule : keeps _set_marker_size.
Proof. unfold _set_marker_size. keeps_all. Qed.
#[local] Hint Resolve keeps_set_marker_size_rule : keeps.

Lemma keeps_limits_from c : keeps (limits_from c).
Proof. unfold limits_from. keeps_all. Qed.
#[local] Hint Resolve keeps_limits_from : keeps.

Lemma keeps_set_grid c wh : keeps (set_grid c wh).
Proof. unfold set_grid. keeps_all. Qed.

Lemma keeps_remove_ax1 : keeps remove_ax1.
Proof. unfold remove_ax1. keeps_all. Qed.
Lemma keeps_remove_ax2 : keeps remove_ax2.
Proof. unfold remove_ax2. keeps_all. Qed.
#[local] Hint Resolve keeps_remove_ax1 keeps_remove_ax2 : keeps.

Lemma keeps_set_which wh : keeps (set_which wh).
Proof. unfold set_which, collapse_axes. keeps_all. Qed.

Lemma keeps_force_together : keeps force_together_defaults.
Proof. unfold force_together_defaults. keeps_all. Qed.
Lemma keeps_force_separate : keeps force_separate_defaults.
Proof. unfold force_separate_defaults. keeps_all. Qed.
#[local] Hint Resolve keeps_force_together keeps_force_separate : keeps.

Lemma keeps_set_grouping g : keeps (set_grouping g).
Proof. unfold set_grouping. keeps_all. Qed.

Lemma keeps_set_mode v : keeps (set_mode v).
Proof. unfold set_mode. keeps_all. Qed.

Lemma keeps_density_x d : keeps (density_x d).
Proof. unfold density_x. keeps_all. Qed.
Lemma keeps_density_y d : keeps (density_y d).
Proof. unfold density_y. keeps_all. Qed.
#[local] Hint Resolve keeps_density_x keeps_density_y : keeps.

Lemma keeps_set_marker_density v d : keeps (set_marker_density v d).
Proof. unfold set_marker_density. keeps_all. Qed.

Lemma keeps_reset_marker_settings : keeps reset_marker_settings.
Proof. unfold reset_marker_settings, reset_linewidths, solid_defaults. keeps_all. Qed.

Lemma keeps_set_marker_type t : keeps (set_marker_type t).
Proof. unfold set_marker_type. keeps_all. Qed.

Lemma keeps_set_marker_color c wh : keeps (set_marker_color c wh).
Proof. unfold set_marker_color. keeps_all. Qed.

Lemma keeps_set_marker_size v : keeps (set_marker_size v).
Proof. unfold set_marker_size. keeps_all. Qed.

Lemma keeps_set_marker_linewidth v wh : keeps (set_marker_linewidth v wh).
Proof. unfold set_marker_linewidth. keeps_all. Qed.

Lemma keeps_set_marker_transparency v wh : keeps (set_marker_transparency v wh).
Proof. unfold set_marker_transparency. keeps_all. Qed.

Lemma keeps_set_axes_facecolor v : keeps (set_axes_facecolor v).
Proof. unfold set_axes_facecolor. keeps_all. Qed.

Lemma keeps_set_colormap c : keeps (set_colormap c).
Proof. unfold set_colormap. keeps_all. Qed.

Lemma keeps_set_pf_transparency v : keeps (set_pf_transparency v).
Proof. unfold set_pf_transparency. keeps_all. Qed.

Lemma keeps_frame i : keeps (frame i).
Proof. unfold frame. keeps_all. Qed.
Lemma keeps_field_extrema : keeps field_extrema.
Proof. unfold field_extrema. keeps_all. Qed.
Lemma keeps_strides : keeps strides.
Proof. unfold strides. keeps_all. Qed.
#[local] Hint Resolve keeps_frame keeps_field_extrema keeps_strides : keeps.

Lemma keeps_sampled i : keeps (sampled i).
Proof. unfold sampled. keeps_all. Qed.
Lemma keeps_pcolormesh rgba : keeps (pcolormesh rgba).
Proof. unfold pcolormesh. keeps_all; cbv zeta; keeps_all. Qed.
Lemma keeps_colorbar : keeps colorbar.
Proof. unfold colorbar. keeps_all. Qed.
Lemma keeps_grid_samples : keeps grid_samples.
Proof. unfold grid_samples. keeps_all. Qed.
Lemma keeps_glyph_call c : keeps (glyph_call c).
Proof. unfold glyph_call. keeps_all. Qed.
Lemma keeps_set_limits : keeps set_limits.
Proof. unfold set_limits. keeps_all. Qed.
#[local] Hint Resolve keeps_sampled keeps_pcolormesh keeps_colorbar keeps_grid_samples
  keeps_glyph_call keeps_set_limits : keeps.
Lemma keeps_new_mesh : keeps new_mesh.
Proof. unfold new_mesh. keeps_all. Qed.
Lemma keeps_new_arrow : keeps new_arrow.
Proof. unfold new_arrow. keeps_all. Qed.
Lemma keeps_set_marker : keeps _set_marker.
Proof. unfold _set_marker. keeps_all. Qed.
#[local] Hint Resolve keeps_new_mesh keeps_new_arrow keeps_set_marker : keeps.

Lemma keeps_new_markers : keeps new_markers.
Proof. unfold new_markers. keeps_all. Qed.
Lemma keeps_colour_kwargs : keeps colour_kwargs.
Proof. unfold colour_kwargs. keeps_all. Qed.
#[local] Hint Resolve keeps_new_markers keeps_colour_kwargs : keeps.

Lemma keeps_initialize_plot : keeps _initialize_plot.
Proof. unfold _initialize_plot. keeps_all. Qed.

Lemma keeps_update_markers : keeps _update_markers.
Proof. unfold _update_markers. keeps_all. Qed.
Lemma keeps_redraw_mesh i : keeps (redraw_mesh i).
Proof. unfold redraw_mesh. keeps_all. Qed.
Lemma keeps_recolour i : keeps (recolour i).
Proof. unfold recolour. keeps_all. Qed.
Lemma keeps_marker_loop i : keeps (marker_loop i).
Proof. unfold marker_loop. keeps_all. Qed.
#[local] Hint Resolve keeps_initialize_plot keeps_update_markers keeps_redraw_mesh
  keeps_recolour keeps_marker_loop : keeps.

Lemma keeps_draw_frame i : keeps (_draw_frame i).
Proof. unfold _draw_frame. keeps_all. Qed.
#[local] Hint Resolve keeps_draw_frame : keeps.

Lemma keeps_preview f : keeps (preview f).
Proof. unfold preview. keeps_all. Qed.

(** Every public call other than [set_phi] leaves [complex_field] as it
    was. *)
Lemma keeps_run (c : call) : is_set_phi c = false -> keeps (run c).
Proof.
  destruct c; cbn; intros H; try discriminate;
    auto using keeps_set_grid, keeps_set_which, keeps_set_grouping, keeps_set_mode,
      keeps_set_marker_density, keeps_reset_marker_settings, keeps_set_marker_type,
      keeps_set_marker_color, keeps_set_marker_size, keeps_set_marker_linewidth,
      keeps_set_marker_transparency, keeps_set_axes_facecolor, keeps_set_colormap,
      keeps_set_pf_transparency, keeps_preview.
Qed.

Lemma keeps_init_body_no_field cx cy : keeps (init_body PNone cx cy).
Proof. unfold init_body. keeps_all. Qed.

(** Without a field the attribute is never created. *)
Lemma no_field_no_complex_field (s : animator) :
  never_given_a_field s -> complex_field s = None.
Proof.
  induction 1 as [deg cx cy s Hinit | c s Hs IH Hc].
  - unfold __init__ in Hinit.
    destruct deg as [|[d|]| | |]; try discriminate.
    destruct (d <? 1); try discriminate.
    pose proof (keeps_init_body_no_field cx cy (fresh d)) as Hk.
    destruct (init_body PNone cx cy (fresh d)) as [[e|u] s']; try discriminate.
    injection Hinit as <-. exact Hk.
  - unfold state_of. rewrite (keeps_run c Hc s). exact IH.
Qed.

(** ** Grouping before any field *)

(** C10.  An animator built with [field=None], on which [set_phi] has not been
    called, raises [AttributeError] on [set_grouping] with any valid argument:
    the method reads [self.complex_field], an attribute only [_check_phi]
    creates.  Nothing is recorded: the object is left as it was. *)
Theorem set_grouping_without_field (s : animator) (g : string) :
  never_given_a_field s ->
  str_in (lower g) _grouping_list = true ->
  set_grouping g s = (inl AttributeError, s).
Proof.
  intros Hs Hg. apply no_field_no_complex_field in Hs.
  unfold set_grouping. rewrite Hg. cbn [negb].
  unfold mbind, M_bind, attr. rewrite Hs. reflexivity.
Qed.

Lemma set_grouping_without_field_witness :
  never_given_a_field (after [Set_which "both"; Set_mode (PNum (Int 2))] (fresh 3))
  /\ set_grouping "separate"
       (after [Set_which "both"; Set_mode (PNum (Int 2))] (fresh 3))
     = (inl AttributeError,
        after [Set_which "both"; Set_mode (PNum (Int 2))] (fresh 3)).
Proof.
  assert (H : never_given_a_field
                (after [Set_which "both"; Set_mode (PNum (Int 2))] (fresh 3))).
  { unfold after, fold_left.
    apply called; [apply called; [|reflexivity]|reflexivity].
    apply (built (PNum (Int 3)) PNone PNone). reflexivity. }
  split; [exact H|].
  apply (set_grouping_without_field _ "separate" H). reflexivity.
Defined.

(** ** Defaults forced by the compositing mode *)

(** C1.  With [which = 'both'] and [grouping = 'together'], [set_mode(1)] and
    [set_mode(2)] return and leave the marker type ['point'] when [p = 2] and
    ['patch'] otherwise, the patch transparency 1.0 when the type became
    ['patch'], and the field transparency 0.25, whatever the marker type and
    the transparencies were before the call. *)
Theorem set_mode_forces_defaults (s : animator) (m : Z) :
  which s = "both" -> grouping s = "together" -> m = 1 \/ m = 2 ->
  exists s', set_mode (PNum (Int m)) s = (inr tt, s')
    /\ mode s' = Int m
    /\ marker_type s' = (if p s =? 2 then "point" else "patch")
    /\ (marker_type s' = "patch" ->
        marker_transparencies s' !! "patch" = Some (Float f_1_0))
    /\ pf_transparency s' = Float f_0_25.
Proof.
  intros Hw Hg Hm. destruct s; cbn in Hw, Hg; subst.
  cbn [p]. unfold set_mode, force_together_defaults, set_transparency.
  destruct (p0 =? 2) eqn:Hp; destruct Hm; subst; exec; rewrite Hp; exec;
    (eexists; split; [reflexivity|]); cbn;
    repeat split; try reflexivity; try discriminate;
    intros _; apply lookup_insert_eq.
Qed.

Lemma set_mode_forces_defaults_witness :
  exists s',
    set_mode (PNum (Int 1))
      (after [Set_which "both"; Set_marker_type "tick";
              Set_marker_transparency (PNum (Float f_0_25)) "patch";
              Set_pf_transparency (PNum (Float f_0_5))] demo_state)
    = (inr tt, s')
    /\ mode s' = Int 1
    /\ marker_type s' = "patch"
    /\ (marker_type s' = "patch" ->
        marker_transparencies s' !! "patch" = Some (Float f_1_0))
    /\ pf_transparency s' = Float f_0_25.
Proof.
  apply (set_mode_forces_defaults
           (after [Set_which "both"; Set_marker_type "tick";
                   Set_marker_transparency (PNum (Float f_0_25)) "patch";
                   Set_pf_transparency (PNum (Float f_0_5))] demo_state) 1).
  - vm_compute. reflexivity.
  - vm_compute. reflexivity.
  - left. reflexivity.
Defined.

(** ** Defaults forced by the grouping *)




(** Two objects with the same attribute values are the same object state. *)
Lemma animator_ext (s t : animator) :
  p s = p t ->
  which s = which t ->
  grouping s = grouping t ->
  mode s = mode t ->
  marker_type s = marker_type t ->
  marker_size s = marker_size t ->
  marker_colors s = marker_colors t ->
  marker_linewidths s = marker_linewidths t ->
  marker_transparencies s = marker_transparencies t ->
  pf_transparency s = pf_transparency t ->
  colormap s = colormap t ->
  ax_fc s = ax_fc t ->
  ax1 s = ax1 t ->
  ax2 s = ax2 t ->
  marker_density_x s = marker_density_x t ->
  marker_density_y s = marker_density_y t ->
  _slc_x s = _slc_x t ->
  _slc_y s = _slc_y t ->
  field s = field t ->
  nx s = nx t ->
  ny s = ny t ->
  nt s = nt t ->
  x s = x t ->
  y s = y t ->
  x0 s = x0 t ->
  x1 s = x1 t ->
  y0 s = y0 t ->
  y1 s = y1 t ->
  complex_field s = complex_field t ->
  SM s = SM t ->
  cont s = cont t ->
  CB s = CB t ->
  arrow s = arrow t ->
  patch s = patch t ->
  point s = point t ->
  tick s = tick t ->
  drawn s = drawn t ->
  s = t.
Proof.
  destruct s, t; cbn; intros; subst; reflexivity.
Qed.

Ltac decide_cmp :=
  repeat match goal with
    | |- context [?a <=? ?b] =>
        first [ rewrite (proj2 (Z.leb_le a b)) by lia
              | rewrite (proj2 (Z.leb_gt a b)) by lia ]
    | |- context [?a <? ?b] =>
        first [ rewrite (proj2 (Z.ltb_lt a b)) by lia
              | rewrite (proj2 (Z.ltb_ge a b)) by lia ]
    end.

Ltac use_equations :=
  repeat match goal with
    | H : ?l = _ |- context [?l] => rewrite H
    end.

Ltac run_sized :=
  cbv [mbind mret M_bind M_ret err_bind err_ret get assign raise lift attr scene
       operand try_except state_of returned raised fst snd];
  cbn -[marker_count size_by_count].

Ltac same_map :=
  apply map_eq; intros ?; rewrite !lookup_insert; repeat case_decide; congruence.

Lemma count_ranges (t : Z) :
  t < 10 \/ 10 <= t < 20 \/ 20 <= t < 30 \/ 30 <= t < 40
  \/ 40 <= t < 50 \/ 50 <= t <= 60 \/ 60 < t.
Proof. lia. Qed.

Lemma size_by_count_action (N deg : Z) : size_action (size_by_count N deg).
Proof.
  unfold size_by_count.
  destruct (Z.leb_spec 3 deg);
    decompose [or] (count_ranges N); decide_cmp; cbn [andb]; constructor.
Qed.

(** [marker_count] only reads the object. *)
Lemma marker_count_reads (s : animator) : snd (marker_count s) = s.
Proof.
  unfold marker_count. exec.
  destruct (nx s), (ny s); reflexivity.
Qed.

(** Its result depends on the extents and the densities alone. *)
Lemma marker_count_inputs (s s' : animator) :
  nx s' = nx s -> ny s' = ny s ->
  marker_density_x s' = marker_density_x s ->
  marker_density_y s' = marker_density_y s ->
  fst (marker_count s') = fst (marker_count s).
Proof.
  intros Hx Hy Hdx Hdy. unfold marker_count. exec. rewrite Hx, Hy.
  destruct (nx s), (ny s); exec; rewrite ?Hdx, ?Hdy; reflexivity.
Qed.

Lemma marker_count_frame (s s' : animator) (r : exn + Z) :
  nx s' = nx s -> ny s' = ny s ->
  marker_density_x s' = marker_density_x s ->
  marker_density_y s' = marker_density_y s ->
  marker_count s = (r, s) -> marker_count s' = (r, s').
Proof.
  intros Hx Hy Hdx Hdy Hc.
  pose proof (marker_count_inputs s s' Hx Hy Hdx Hdy) as Hf.
  pose proof (marker_count_reads s') as Hs.
  destruct (marker_count s') as [r' s'']. rewrite Hc in Hf. cbn in *. congruence.
Qed.

(** ** Reset

    C9.  [reset_marker_settings] is idempotent: calling it on the object a
    first call left behind gives the same result and the same object, whether
    the call returns or raises. *)
Theorem reset_twice (s : animator) :
  reset_marker_settings (state_of (reset_marker_settings s)) = reset_marker_settings s.
Proof.
  pose proof (marker_count_reads s) as Hr.
  destruct (marker_count s) as [r s0] eqn:Hc. cbn in Hr. subst s0.
  unfold reset_marker_settings, _set_marker_size.
  destruct r as [e|N].
  - run_sized. rewrite Hc. run_sized. rewrite Hc. reflexivity.
  - pose proof (size_by_count_action N (p s)) as Hk.
    remember (size_by_count N (p s)) as k eqn:Ek. symmetry in Ek.
    unfold reset_linewidths, solid_defaults, set_linewidth, set_transparency, set_color.
    run_sized. rewrite Hc. run_sized. rewrite Ek.
    destruct Hk as [sz|lw sz]; unfold thin_markers, set_linewidth; run_sized;
    (destruct ((which s ==? "op") || (which s ==? "both") && (grouping s ==? "separate")
               || (which s ==? "both") && (grouping s ==? "together")
                  && num_eqb (mode s) (Int 0)) eqn:Hc1;
      [|destruct ((which s ==? "both") && (num_eqb (mode s) (Int 1) || num_eqb (mode s) (Int 2)))
          eqn:Hc2]);
    run_sized;
    match goal with
    | |- context [marker_count ?s1] =>
        rewrite (marker_count_frame s s1 (inr N)) by (try reflexivity; exact Hc)
    end;
    run_sized; rewrite Ek; unfold thin_markers, set_linewidth; run_sized;
    rewrite ?Hc1, ?Hc2; run_sized.
    all: f_equal; apply animator_ext; cbn; try reflexivity; same_map.
Qed.

Lemma count_matches_code (d : number) (n N : Z) :
  (prod ← num_mul d (Int n); k ← num_floor prod; mret (Z.max 10 k)) = inr N ->
  exists t, (prod ← num_mul d (Int n); py_int prod) = inr t /\ N = Z.max 10 t.
Proof.
  destruct (num_mul d (Int n)) as [e|[z|f]]; cbn; try discriminate.
  - intros [= <-]. eauto.
  - pose proof (floor_trunc f) as H.
    destruct (float_trunc f) as [e|t], (float_floor f) as [e'|fl];
      cbn; try discriminate; try contradiction.
    intros [= <-]. exists t. split; [reflexivity|lia].
Qed.

Lemma glyph_count_marker_count (s : animator) (N : Z) :
  glyph_count s = inr N ->
  exists t, marker_count s = (inr t, s) /\ N = Z.max 10 t.
Proof.
  unfold glyph_count, marker_count. exec.
  destruct (nx s) as [a|], (ny s) as [b|]; try discriminate. exec.
  rewrite Z.geb_leb. intros H.
  apply count_matches_code in H as (t & Ht & ->).
  cbv [mbind err_bind] in Ht. rewrite Ht. eauto.
Qed.

(** ** The size rule

    C4.  When the glyph count [N] of the specification is defined, that is
    floor(density * max(nx, ny)) with the density of the axis that attains the
    maximum, raised to 10 when it is smaller, [_set_marker_size] returns, and
    [N = 10] gives size 140 for [p >= 3] and line width 1.75 with size 140 for
    [p < 3], while [N = 65] gives size 20 for [p >= 3] and line width 0.85
    with size 30 for [p < 3]. *)
Theorem marker_size_rule (s : animator) (N : Z) :
  glyph_count s = inr N ->
  exists s', _set_marker_size s = (inr tt, s')
    /\ (N = 10 -> 3 <= p s -> marker_size s' = Int 140)
    /\ (N = 10 -> p s < 3 ->
        marker_size s' = Int 140
        /\ marker_linewidths s' !! "point" = Some (Float f_1_75)
        /\ marker_linewidths s' !! "tick" = Some (Float f_1_75))
    /\ (N = 65 -> 3 <= p s -> marker_size s' = Int 20)
    /\ (N = 65 -> p s < 3 ->
        marker_size s' = Int 30
        /\ marker_linewidths s' !! "point" = Some (Float f_0_85)
        /\ marker_linewidths s' !! "tick" = Some (Float f_0_85)).
Proof.
  intros HN. apply glyph_count_marker_count in HN as (t & Hc & ->).
  unfold _set_marker_size. run_sized. rewrite Hc. run_sized.
  unfold size_by_count, thin_markers, set_linewidth.
  destruct (Z.leb_spec 3 (p s));
    decompose [or] (count_ranges t); decide_cmp; exec;
    (eexists; split; [reflexivity|]); cbn;
    repeat split; intros; try lia; try reflexivity;
    try (rewrite lookup_insert_ne by discriminate; apply lookup_insert_eq);
    try apply lookup_insert_eq.
Qed.

Lemma stride_unit_float (a : Z) :
  0 <= a < 2 ^ 53 -> stride (Float f_1_0) (Some a) = floordiv a a.
Proof.
  intros Ha. unfold stride.
  pose proof (int_of_unit_product a Ha) as H.
  cbv [mbind err_bind] in *.
  destruct (num_mul (Float f_1_0) (Int a)) as [e|v]; [discriminate|].
  rewrite H. reflexivity.
Qed.

Lemma stride_unit_int (a : Z) : stride (Int 1) (Some a) = floordiv a a.
Proof. unfold stride. cbn [num_mul mbind err_bind py_int]. now rewrite Z.mul_1_l. Qed.

Lemma in_directions (dir : string) :
  str_in dir ["x"; "y"; "both"] = true -> dir = "x" \/ dir = "y" \/ dir = "both".
Proof.
  unfold str_in. cbn [existsb]. rewrite !orb_true_iff, !String.eqb_eq.
  intros [H|[H|[H|H]]]; auto. discriminate.
Qed.

Lemma unit_pair_same (d1 d2 : number) : unit_pair d1 d2 -> same_number d1 d2.
Proof. intros [->|[-> ->]]; [left|right]; reflexivity. Qed.

Lemma unit_product (d1 d2 : number) (n : Z) :
  unit_pair d1 d2 -> 0 <= n < 2 ^ 53 ->
  (prod ← num_mul d1 (Int n); py_int prod) = (prod ← num_mul d2 (Int n); py_int prod).
Proof.
  intros [->|[-> ->]] Hn; [reflexivity|].
  now rewrite int_of_int_product, int_of_unit_product.
Qed.

Lemma marker_count_unit (s1 s2 : animator) (a b : Z) :
  nx s1 = Some a -> ny s1 = Some b -> nx s2 = Some a -> ny s2 = Some b ->
  0 <= a < 2 ^ 53 -> 0 <= b < 2 ^ 53 ->
  unit_pair (marker_density_x s1) (marker_density_x s2) ->
  unit_pair (marker_density_y s1) (marker_density_y s2) ->
  fst (marker_count s1) = fst (marker_count s2).
Proof.
  intros Hx1 Hy1 Hx2 Hy2 Ha Hb Hdx Hdy.
  assert (Hmax : 0 <= Z.max a b < 2 ^ 53) by lia.
  unfold marker_count. exec. rewrite Hx1, Hy1, Hx2, Hy2. exec.
  pose proof (unit_product _ _ _ Hdx Hmax) as Ex.
  pose proof (unit_product _ _ _ Hdy Hmax) as Ey.
  cbv [mbind err_bind] in Ex, Ey.
  destruct (a >=? b); [rewrite Ex|rewrite Ey];
    match goal with |- context [match ?r with inl _ => _ | inr _ => _ end] =>
      destruct r as [e|v] end; try reflexivity; destruct (py_int v); reflexivity.
Qed.

Lemma without_density_fields (s t : animator) :
  without_density s = without_density t ->
  p s = p t /\ marker_linewidths s = marker_linewidths t.
Proof.
  intros H. split.
  - apply (f_equal p) in H. exact H.
  - apply (f_equal marker_linewidths) in H. exact H.
Qed.

Lemma size_rule_same (s1 s2 : animator) :
  fst (marker_count s1) = fst (marker_count s2) ->
  same_state s1 s2 ->
  same_outcome (_set_marker_size s1) (_set_marker_size s2).
Proof.
  intros Hc (Hdx & Hdy & Hw).
  destruct (without_density_fields _ _ Hw) as [Hp Hlw].
  pose proof (marker_count_reads s1) as R1. pose proof (marker_count_reads s2) as R2.
  unfold _set_marker_size. run_sized.
  destruct (marker_count s1) as [r1 u1], (marker_count s2) as [r2 u2].
  cbn in Hc, R1, R2. subst u1 u2 r2.
  destruct r1 as [e|N]; run_sized.
  - repeat split; assumption.
  - rewrite <- Hp.
    destruct (size_by_count_action N (p s1)) as [sz|lw sz];
      unfold thin_markers, set_linewidth; run_sized; rewrite <- ?Hlw;
      (split; [reflexivity|]); repeat split; try assumption;
      unfold without_density in *;
      apply animator_ext; cbn;
      try reflexivity;
      match goal with
      | |- ?f s1 = ?f s2 => apply (f_equal f) in Hw; exact Hw
      end.
Qed.

Ltac run_density :=
  cbv [mbind mret M_bind M_ret err_bind err_ret get assign raise lift attr scene
       operand try_except];
  cbn -[marker_count size_by_count _set_marker_size stride floordiv].

Lemma same_state_densities (s : animator) (dx1 dx2 dy1 dy2 : number) (u : animator -> animator) :
  unit_pair dx1 dx2 -> unit_pair dy1 dy2 ->
  (forall d e, without_density (u (upd_marker_density_x d (upd_marker_density_y e s)))
               = without_density (u s)) ->
  (forall t, marker_density_x (u t) = marker_density_x t) ->
  (forall t, marker_density_y (u t) = marker_density_y t) ->
  same_state (u (upd_marker_density_x dx1 (upd_marker_density_y dy1 s)))
             (u (upd_marker_density_x dx2 (upd_marker_density_y dy2 s))).
Proof.
  intros Hx Hy Hu Hux Huy. repeat split.
  - rewrite !Hux. cbn. now apply unit_pair_same.
  - rewrite !Huy. cbn. now apply unit_pair_same.
  - now rewrite !Hu.
Qed.

Lemma size_rule_returns (s : animator) (N : Z) :
  fst (marker_count s) = inr N -> returned (_set_marker_size s).
Proof.
  intros Hc. pose proof (marker_count_reads s) as R.
  unfold _set_marker_size, returned. run_sized.
  destruct (marker_count s) as [r u]. cbn in Hc, R. subst.
  run_sized.
  destruct (size_by_count_action N (p s)) as [sz|lw sz];
    unfold thin_markers, set_linewidth; run_sized; eauto.
Qed.

Ltac same_state_tac :=
  repeat split; cbn;
  first [ left; reflexivity
        | right; reflexivity
        | unfold without_density; apply animator_ext; cbn; reflexivity ].

Ltac unit_pair_tac :=
  cbn; first [ left; reflexivity | right; split; reflexivity ].

(** ** Density

    C8, as stated, fails: the two calls do not leave the same state.  The
    clamp assigns the integer literal ([density = 1]), so after
    [set_marker_density(1.5)] the attribute holds the [int] 1, and after
    [set_marker_density(1.0)] the [float] 1.0. *)
Lemma density_above_one_differs :
  grid_defined demo_state 20 20
  /\ state_of (set_marker_density (PNum (Float f_1_5)) "both" demo_state)
     <> state_of (set_marker_density (PNum (Float f_1_0)) "both" demo_state).
Proof.
  split.
  - unfold grid_defined.
    repeat split; try (vm_compute; discriminate); vm_compute; reflexivity.
  - intros H. apply (f_equal marker_density_x) in H. vm_compute in H. discriminate.
Qed.

Lemma above_one_not_negative (f : spec_float) :
  num_gt (Float f) (Int 1) = true -> num_lt (Float f) (Int 0) = false.
Proof.
  unfold num_gt, num_lt, num_compare, float_compare_Z.
  destruct f as [sg|sg| |sg m e].
  - discriminate.
  - destruct sg; [discriminate|reflexivity].
  - discriminate.
  - assert (Hp : forall k, 0 <= k -> 0 < 2 ^ k) by (intros; apply Z.pow_pos_nonneg; lia).
    destruct (Z.leb_spec 0 e) as [He|He].
    + pose proof (Hp e He).
      destruct (Z.compare_spec (cond_Zopp sg (Z.pos m) * 2 ^ e) 1); try discriminate.
      intros _.
      destruct (Z.compare_spec (cond_Zopp sg (Z.pos m) * 2 ^ e) 0); try reflexivity.
      lia.
    + pose proof (Hp (- e) ltac:(lia)).
      destruct (Z.compare_spec (cond_Zopp sg (Z.pos m)) (1 * 2 ^ (- e))); try discriminate.
      intros _.
      destruct (Z.compare_spec (cond_Zopp sg (Z.pos m)) (0 * 2 ^ (- e))); try reflexivity.
      lia.
Qed.

Lemma coerce_density_above_one (v : pyobj) (f : spec_float) :
  py_float v = inr f -> num_gt (Float f) (Int 1) = true ->
  coerce_density v = inr (Int 1).
Proof.
  intros Hv Hf. unfold coerce_density.
  rewrite Hv, (above_one_not_negative f Hf), Hf. reflexivity.
Qed.

Lemma size_rule_frame (s : animator) :
  marker_density_x (snd (_set_marker_size s)) = marker_density_x s
  /\ marker_density_y (snd (_set_marker_size s)) = marker_density_y s
  /\ _slc_x (snd (_set_marker_size s)) = _slc_x s
  /\ _slc_y (snd (_set_marker_size s)) = _slc_y s.
Proof.
  pose proof (marker_count_reads s) as R.
  unfold _set_marker_size. run_sized.
  destruct (marker_count s) as [r u]. cbn in R. subst u.
  destruct r as [e|N]; run_sized; [repeat split|].
  destruct (size_by_count_action N (p s)) as [sz|lw sz];
    unfold thin_markers, set_linewidth; run_sized; repeat split.
Qed.

Lemma floordiv_same (a : Z) : 1 <= a -> floordiv a a = inr 1.
Proof.
  intros Ha. unfold floordiv. rewrite (proj2 (Z.eqb_neq a 0)) by lia.
  rewrite Z.div_same by lia. reflexivity.
Qed.

(** C8, amended.  On a fully defined grid, a density above 1 (1.5, or any
    value [float] turns into a number above 1) has the same result as the
    density 1.0, and the two calls leave objects whose attributes are all
    identical except the stored density: the clamp stores the integer 1 on
    every axis where the other call stores the float 1.0, two numbers that
    are equal in Python.  With the default direction and a non-empty grid the
    call returns, and a marker is then drawn on every site.  A density of -0.1
    raises [ValueError] and a density that [float] rejects raises [TypeError],
    both leaving the object untouched. *)
Theorem density_above_one_clamps
    (s : animator) (a b : Z) (v : pyobj) (f : spec_float) (dir : string) :
  grid_defined s a b -> str_in dir ["x"; "y"; "both"] = true ->
  py_float v = inr f -> num_gt (Float f) (Int 1) = true ->
  same_outcome (set_marker_density v dir s)
               (set_marker_density (PNum (Float f_1_0)) dir s)
  /\ (dir <> "y" ->
      marker_density_x (state_of (set_marker_density v dir s)) = Int 1
      /\ marker_density_x (state_of (set_marker_density (PNum (Float f_1_0)) dir s))
         = Float f_1_0)
  /\ (dir <> "x" ->
      marker_density_y (state_of (set_marker_density v dir s)) = Int 1
      /\ marker_density_y (state_of (set_marker_density (PNum (Float f_1_0)) dir s))
         = Float f_1_0)
  /\ (dir = "both" -> 1 <= a -> 1 <= b ->
      returned (set_marker_density v dir s)
      /\ _slc_x (state_of (set_marker_density v dir s)) = 1
      /\ _slc_y (state_of (set_marker_density v dir s)) = 1)
  /\ set_marker_density (PNum (Float f_neg_0_1)) dir s = (inl ValueError, s)
  /\ (forall u e, py_float u = inl e ->
      set_marker_density u dir s = (inl TypeError, s)).
Proof.
  intros (Hx & Hy & Hnx & Hny & Ha & Hb) Hdir Hv Hf.
  destruct (x s) as [gx|] eqn:Ex; [|contradiction].
  destruct (y s) as [gy|] eqn:Ey; [|contradiction].
  clear Hx Hy.
  unfold set_marker_density. rewrite Hdir. cbn [negb].
  rewrite (coerce_density_above_one v f Hv Hf).
  change (coerce_density (PNum (Float f_1_0))) with (@inr exn _ (Float f_1_0)).
  change (coerce_density (PNum (Float f_neg_0_1))) with (@inl exn number ValueError).
  split; [|split; [|split; [|split; [|split]]]].
  - unfold density_x, density_y.
    apply in_directions in Hdir as [-> | [-> | ->]];
      repeat (progress (run_density; rewrite ?Ex, ?Ey, ?Hnx, ?Hny));
      rewrite ?stride_unit_int, ?(stride_unit_float a Ha), ?(stride_unit_float b Hb);
      repeat match goal with
        | |- context [floordiv ?u ?v] => destruct (floordiv u v)
        end;
      run_density;
      first
        [ split; [reflexivity|same_state_tac]
        | apply size_rule_same;
          [ apply (marker_count_unit _ _ a b); try assumption; unit_pair_tac
          | same_state_tac ] ].
  - unfold density_x, density_y, state_of. intros Hd.
    apply in_directions in Hdir as [-> | [-> | ->]]; [|contradiction|];
      repeat (progress (run_density; rewrite ?Ex, ?Ey, ?Hnx, ?Hny));
      rewrite ?stride_unit_int, ?(stride_unit_float a Ha), ?(stride_unit_float b Hb);
      repeat match goal with
        | |- context [floordiv ?u ?v] => destruct (floordiv u v)
        end;
      run_density; split;
      first [ reflexivity
            | match goal with
              | |- context [_set_marker_size ?t] =>
                  rewrite (proj1 (size_rule_frame t)); reflexivity
              end ].
  - unfold density_x, density_y, state_of. intros Hd.
    apply in_directions in Hdir as [-> | [-> | ->]]; [contradiction| |];
      repeat (progress (run_density; rewrite ?Ex, ?Ey, ?Hnx, ?Hny));
      rewrite ?stride_unit_int, ?(stride_unit_float a Ha), ?(stride_unit_float b Hb);
      repeat match goal with
        | |- context [floordiv ?u ?v] => destruct (floordiv u v)
        end;
      run_density; split;
      first [ reflexivity
            | match goal with
              | |- context [_set_marker_size ?t] =>
                  rewrite (proj1 (proj2 (size_rule_frame t))); reflexivity
              end ].
  - unfold state_of. intros -> Ha1 Hb1.
    repeat (progress (run_density; rewrite ?Ex, ?Ey, ?Hnx, ?Hny));
      rewrite ?stride_unit_int, ?(floordiv_same a Ha1), ?(floordiv_same b Hb1); run_density.
    split; [|split].
    + apply (size_rule_returns _ (Z.max a b)).
      unfold marker_count. exec. rewrite Hnx, Hny. exec.
      destruct (a >=? b); destruct (Z.max a b); reflexivity.
    + match goal with
      | |- context [_set_marker_size ?t] =>
          rewrite (proj1 (proj2 (proj2 (size_rule_frame t)))); reflexivity
      end.
    + match goal with
      | |- context [_set_marker_size ?t] =>
          rewrite (proj2 (proj2 (proj2 (size_rule_frame t)))); reflexivity
      end.
  - reflexivity.
  - intros u e Hu. unfold coerce_density. rewrite Hu. reflexivity.
Qed.

Lemma marker_size_rule_witness :
  glyph_count wide_state = inr 10
  /\ exists s', _set_marker_size wide_state = (inr tt, s')
       /\ marker_size s' = Int 140.
Proof.
  assert (H : glyph_count wide_state = inr 10) by (vm_compute; reflexivity).
  split; [exact H|].
  destruct (marker_size_rule wide_state 10 H) as (s' & Hs & H10 & _).
  exists s'. split; [exact Hs|].
  apply H10; [reflexivity|]. vm_compute. discriminate.
Defined.

Lemma density_above_one_clamps_witness :
  grid_defined demo_state 20 20
  /\ same_outcome (set_marker_density (PNum (Float f_1_5)) "both" demo_state)
                  (set_marker_density (PNum (Float f_1_0)) "both" demo_state)
  /\ marker_density_x
       (state_of (set_marker_density (PNum (Float f_1_5)) "both" demo_state)) = Int 1
  /\ returned (set_marker_density (PNum (Float f_1_5)) "both" demo_state)
  /\ set_marker_density (PNum (Float f_neg_0_1)) "both" demo_state
     = (inl ValueError, demo_state).
Proof.
  assert (G : grid_defined demo_state 20 20).
  { unfold grid_defined.
    repeat split; try (vm_compute; discriminate); vm_compute; reflexivity. }
  split; [exact G|].
  destruct (density_above_one_clamps demo_state 20 20 (PNum (Float f_1_5)) f_1_5 "both"
              G eq_refl eq_refl eq_refl)
    as (Hsame & Hdx & _ & Hret & Hneg & _).
  split; [exact Hsame|].
  split; [apply Hdx; discriminate|].
  split; [apply Hret; [reflexivity|lia|lia]|exact Hneg].
Defined.

(** The one attribute in which the two objects differ as data: the clamp
    stores the integer 1, the unclamped call the float 1.0, and Python's [==]
    holds between them. *)
Theorem density_clamp_stores_int :
  marker_density_x
    (state_of (set_marker_density (PNum (Float f_1_5)) "both" demo_state)) = Int 1
  /\ marker_density_x
       (state_of (set_marker_density (PNum (Float f_1_0)) "both" demo_state))
     = Float f_1_0
  /\ num_eqb (Int 1) (Float f_1_0) = true.
Proof.
  repeat split; vm_compute; reflexivity.
Qed.

(** ** The colour legend

    C3, evaluated.  For [p = 1] the legend has nine ticks from the smallest to
    the largest angle and tick 4 is labelled 0, but the labels of the extreme
    ticks are [-2\pi] and [2\pi]: the loop reduces [|8 - 2i| / (4p)], which is
    [2/p] at the ends, while the angles [np.angle(field)/p] that the ticks
    mark lie within [-\pi/p, \pi/p].  The labels [-\pi] and [\pi] sit on
    ticks 2 and 6. *)
Theorem legend_labels_degree_1 :
  tick_labels 1
  = inr ["$-2\pi$"; "$-\frac{3\pi}{2}$"; "$-\pi$"; "$-\frac{\pi}{2}$"; "$0$";
         "$\frac{\pi}{2}$"; "$\pi$"; "$\frac{3\pi}{2}$"; "$2\pi$"]
  /\ tick_label 1 0 <> inr "$-\pi$"
  /\ tick_label 1 8 <> inr "$\pi$"
  /\ (forall deg, tick_label deg 4 = inr "$0$")
  /\ (forall lo hi, length (colorbar_ticks lo hi) = 9%nat)
  /\ (forall lo hi, nth 8 (colorbar_ticks lo hi) f_0_0 = to_float hi).
Proof.
  split; [vm_compute; reflexivity|].
  split; [vm_compute; discriminate|].
  split; [vm_compute; discriminate|].
  split; [intros deg; reflexivity|].
  split; intros lo hi; unfold colorbar_ticks, linspace;
    change (1 <? 9) with true; change (0 <? 9 - 1) with true; cbv zeta;
    destruct (SFeqb _ f_0_0); reflexivity.
Qed.

(** ** Coordinate arrays

    C5, evaluated.  A two-dimensional array of the field's shape whose rows are
    0, 1, 4, ..., 81 is accepted by [set_grid], and the grid it leaves is the
    uniform mesh from 0 to 81, not the array: only the minimum and the maximum
    of the argument reach [np.linspace]. *)
Theorem set_grid_discards_point_values :
  shape squares_10_10 = [10; 10]
  /\ ny small_state = Some 10 /\ nx small_state = Some 10
  /\ exists s',
       set_grid (PArray squares_10_10) "both" small_state = (inr tt, s')
       /\ x s' = Some (tile_rows (linspace (Int 0) (Int 81) 10) 10)
       /\ x s' <> Some (map (map to_float) (array_rows squares_10_10)).
Proof.
  repeat split; try (vm_compute; reflexivity).
  eexists. split; [vm_compute; reflexivity|].
  split; [vm_compute; reflexivity|vm_compute; discriminate].
Qed.

(** Whatever the array holds, the outcome of [set_grid] depends on its shape,
    its minimum and its maximum alone. *)
Theorem set_grid_reads_extrema (a a' : ndarray) (wh : string) (s : animator) :
  shape a = shape a' ->
  np_min (PArray a) = np_min (PArray a') ->
  np_max (PArray a) = np_max (PArray a') ->
  set_grid (PArray a) wh s = set_grid (PArray a') wh s.
Proof.
  intros Hs Hmin Hmax.
  unfold set_grid, _set_grid_from_coordinate, _check_coordinate.
  rewrite Hs, Hmin, Hmax. reflexivity.
Qed.

Lemma set_grid_reads_extrema_witness :
  data squares_10_10 <> data even_10_10
  /\ set_grid (PArray squares_10_10) "both" small_state
     = set_grid (PArray even_10_10) "both" small_state.
Proof.
  split; [vm_compute; discriminate|].
  apply (set_grid_reads_extrema squares_10_10 even_10_10 "both" small_state);
    vm_compute; reflexivity.
Defined.

(** ** Preview

    C6, evaluated.  The animator built from a real field of shape (5, 20, 20)
    with [p = 3], switched to both layers and to mode 1, has a field and a
    fully defined grid, and [preview(frame=100)] raises [AttributeError]:
    in mode 1 [_initialize_plot] creates no mesh, and for [p > 1] it then
    reads [self.cont] to build the colour bar. *)
Theorem preview_mode_1_raises :
  field mode_1_state <> None
  /\ x mode_1_state <> None /\ y mode_1_state <> None
  /\ nt mode_1_state = Some 5
  /\ fst (preview (PNum (Int 100)) mode_1_state) = inl AttributeError
  /\ drawn (snd (preview (PNum (Int 100)) mode_1_state)) = None.
Proof.
  repeat split; try (vm_compute; discriminate); vm_compute; reflexivity.
Qed.

(** Drawing assigns scene attributes only: an attribute that is none of
    them is the same before and after [_initialize_plot], whether it returns
    or raises. *)
Create HintDb untouched discriminated.

Section SceneFrame.

Context {B : Type} (f : animator -> B).

Lemma untouched_ret {A} (a : A) : untouched f (mret a).
Proof. intros s. reflexivity. Qed.

Lemma untouched_raise {A} (e : exn) : untouched f (@raise A e).
Proof. intros s. reflexivity. Qed.

Lemma untouched_lift {A} (r : exn + A) : untouched f (lift r).
Proof. intros s. reflexivity. Qed.

Lemma untouched_get {A} (g : animator -> A) : untouched f (get g).
Proof. intros s. reflexivity. Qed.

Lemma untouched_attr {A} (g : animator -> option A) : untouched f (attr g).
Proof. intros s. unfold attr. destruct (g s); reflexivity. Qed.

Lemma untouched_operand {A} (g : animator -> option A) : untouched f (operand g).
Proof. intros s. unfold operand. destruct (g s); reflexivity. Qed.

Lemma untouched_scene (g : animator -> bool) : untouched f (scene g).
Proof. intros s. unfold scene. destruct (g s); reflexivity. Qed.

Lemma untouched_bind {A C} (m : M A) (k : A -> M C) :
  untouched f m -> (forall a, untouched f (k a)) -> untouched f (m ≫= k).
Proof.
  intros Hm Hk s. unfold mbind, M_bind.
  specialize (Hm s). destruct (m s) as [[e|a] s']; cbn in *.
  - assumption.
  - rewrite Hk. assumption.
Qed.

(** The attribute [f] is none of the scene attributes. *)
Hypothesis f_SM : forall v s, f (upd_SM v s) = f s.
Hypothesis f_cont : forall v s, f (upd_cont v s) = f s.
Hypothesis f_CB : forall v s, f (upd_CB v s) = f s.
Hypothesis f_arrow : forall v s, f (upd_arrow v s) = f s.
Hypothesis f_patch : forall v s, f (upd_patch v s) = f s.
Hypothesis f_point : forall v s, f (upd_point v s) = f s.
Hypothesis f_tick : forall v s, f (upd_tick v s) = f s.

Ltac untouched_step :=
  first
    [ apply untouched_ret | apply untouched_raise | apply untouched_lift
    | apply untouched_get | apply untouched_attr | apply untouched_operand
    | apply untouched_scene
    | solve [auto 1 with untouched nocore]
    | intros ?; first [ apply f_SM | apply f_cont | apply f_CB | apply f_arrow
                      | apply f_patch | apply f_point | apply f_tick ]
    | apply untouched_bind; [|intros ?]
    | match goal with
      | |- untouched _ (if ?b then _ else _) => destruct b
      | |- untouched _ (match ?v with _ => _ end) => destruct v
      end ].

Ltac untouched_all := repeat untouched_step.

Lemma untouched_frame i : untouched f (frame i).
Proof. unfold frame. untouched_all. Qed.
Lemma untouched_field_extrema : untouched f field_extrema.
Proof. unfold field_extrema. untouched_all. Qed.
Lemma untouched_strides : untouched f strides.
Proof. unfold strides. untouched_all. Qed.
#[local] Hint Resolve untouched_frame untouched_field_extrema untouched_strides : untouched.
Lemma untouched_sampled i : untouched f (sampled i).
Proof. unfold sampled. untouched_all. Qed.
Lemma untouched_pcolormesh rgba : untouched f (pcolormesh rgba).
Proof. unfold pcolormesh. untouched_all; cbv zeta; untouched_all. Qed.
Lemma untouched_colorbar : untouched f colorbar.
Proof. unfold colorbar. untouched_all. Qed.
Lemma untouched_grid_samples : untouched f grid_samples.
Proof. unfold grid_samples. untouched_all. Qed.
Lemma untouched_glyph_call c : untouched f (glyph_call c).
Proof. unfold glyph_call. untouched_all. Qed.
Lemma untouched_set_limits : untouched f set_limits.
Proof. unfold set_limits. untouched_all. Qed.
Lemma untouched_set_marker : untouched f _set_marker.
Proof. unfold _set_marker. untouched_all. Qed.

#[local] Hint Resolve untouched_sampled untouched_pcolormesh untouched_colorbar
  untouched_grid_samples untouched_glyph_call untouched_set_limits untouched_set_marker
  : untouched.


End SceneFrame.






(** Without a field, or without both coordinate arrays, [preview] raises and
    leaves the object as it was. *)
Theorem preview_needs_field_and_grid (s : animator) (frm : pyobj) :
  field s = None \/ x s = None \/ y s = None ->
  preview frm s = (inl Exception, s).
Proof.
  intros H. unfold preview. exec.
  destruct (field s); [|reflexivity].
  destruct H as [H|[H|H]]; [discriminate| |]; rewrite H; exec;
    [|destruct (x s)]; reflexivity.
Qed.

Lemma preview_needs_field_and_grid_witness :
  preview PNone (fresh 3) = (inl Exception, fresh 3).
Proof.
  apply (preview_needs_field_and_grid (fresh 3) PNone). left. reflexivity.
Defined.

(** ** Failed setters

    C7, evaluated.  On the animator [PAticAnimator(3)], [set_phi] with a real
    array of shape (5, 5, 5) raises [ZeroDivisionError] in the stride
    computation, since [int(0.1 * 5) = 0], after it has already stored the
    field, its three extents and [complex_field]. *)
Theorem set_phi_keeps_partial_update :
  __init__ (PNum (Int 3)) PNone PNone PNone = inr (fresh 3)
  /\ exists s',
       set_phi (PArray (zeros [5; 5; 5])) (fresh 3) = (inl ZeroDivisionError, s')
       /\ s' <> fresh 3
       /\ field s' = Some (zeros [5; 5; 5])
       /\ nx s' = Some 5 /\ ny s' = Some 5 /\ nt s' = Some 5
       /\ complex_field s' = Some false
       /\ field (fresh 3) = None /\ complex_field (fresh 3) = None.
Proof.
  split; [reflexivity|].
  eexists. split; [vm_compute; reflexivity|].
  split; [intros H; apply (f_equal nx) in H; vm_compute in H; discriminate|].
  repeat split; vm_compute; reflexivity.
Qed.

Ltac atomic_leaf :=
  exec; intros Hraise; first [discriminate Hraise | reflexivity].

(** The setters that validate before their first assignment do leave the
    object untouched when they raise. *)
Theorem validating_setters_are_atomic (c : call) (s : animator) (e : exn) :
  validates_first c = true ->
  fst (run c s) = inl e -> snd (run c s) = s.
Proof.
  destruct c; cbn [validates_first run]; try discriminate; intros _.
  - unfold set_which, collapse_axes, remove_ax1, remove_ax2. exec.
    destruct (negb _); exec; [atomic_leaf|].
    destruct (ax2 s) as [[]|]; exec; try (destruct (ax1 s); exec);
      destruct (which s ==? "pf"); atomic_leaf.
  - unfold set_mode. destruct (in_mode_list v); exec; [|atomic_leaf].
    unfold force_together_defaults, force_separate_defaults, set_transparency.
    destruct (which s ==? "both"); exec; [|atomic_leaf].
    destruct (_ && _); exec.
    + destruct (p s =? 2); atomic_leaf.
    + destruct (grouping s ==? "separate"); atomic_leaf.
  - unfold set_marker_type. destruct (negb _); exec; atomic_leaf.
  - unfold set_marker_color, set_color. destruct (negb _); exec; atomic_leaf.
  - unfold set_marker_size. destruct (negative_number v); exec; [atomic_leaf|].
    destruct (coerce_float v); exec; atomic_leaf.
  - unfold set_marker_linewidth, set_linewidth.
    destruct (negb _); exec; [atomic_leaf|].
    destruct (negative_number v); exec; [atomic_leaf|].
    destruct (coerce_float v); exec; atomic_leaf.
  - unfold set_marker_transparency, set_transparency.
    destruct (negb _); exec; [atomic_leaf|].
    destruct (coerce_float v); exec; atomic_leaf.
  - unfold set_axes_facecolor. destruct v; exec; atomic_leaf.
  - unfold set_pf_transparency. destruct (coerce_float v); exec; atomic_leaf.
Qed.

Lemma validating_setters_are_atomic_witness :
  snd (run (Set_marker_size (PNum (Int (-1)))) demo_state) = demo_state.
Proof.
  apply (validating_setters_are_atomic (Set_marker_size (PNum (Int (-1))))
           demo_state ValueError); reflexivity.
Defined.
